(** * jupyterhub-winlocalprocessspawner: the impersonated launcher and its
      access grantor

    A shallow embedding of [winlocalprocessspawner/win_utils.py] and
    [winlocalprocessspawner/winlocalprocessspawner.py].

    The Python code talks to Windows through pywin32 and to the C runtime
    through the standard library.  Every such call is kept as a primitive
    of a small monad: its outcome is read from an [oracle] (so every
    theorem holds for every behaviour of the operating system), its effect
    on the modelled part of the machine (object DACLs, directories on disk)
    is applied to the [world], and the call is recorded in a trace.  [exn] stands for the instances of Python's
    [Exception]; asynchronous [BaseException]s are outside the model. *)

From Stdlib Require Import ZArith List String Ascii Bool Lia.
From stdpp Require Import base gmap strings list.
Import ListNotations.

Local Open Scope string_scope.
Local Open Scope list_scope.

(** ** Constants of [win32con], [win32security], [win32process], [win32event]

    The values are those of the Windows SDK headers, as pywin32 exposes
    them; [win32con.GENERIC_READ] is the signed rendering of 0x80000000. *)
Module Win32.
Definition GENERIC_READ : Z := (-2147483648)%Z.
Definition GENERIC_WRITE : Z := 1073741824%Z.
Definition GENERIC_EXECUTE : Z := 536870912%Z.
Definition GENERIC_ALL : Z := 268435456%Z.

Definition DELETE : Z := 65536%Z.
Definition READ_CONTROL : Z := 131072%Z.
Definition WRITE_DAC : Z := 262144%Z.
Definition WRITE_OWNER : Z := 524288%Z.

Definition WINSTA_ENUMDESKTOPS : Z := 1%Z.
Definition WINSTA_READATTRIBUTES : Z := 2%Z.
Definition WINSTA_ACCESSCLIPBOARD : Z := 4%Z.
Definition WINSTA_CREATEDESKTOP : Z := 8%Z.
Definition WINSTA_WRITEATTRIBUTES : Z := 16%Z.
Definition WINSTA_ACCESSGLOBALATOMS : Z := 32%Z.
Definition WINSTA_EXITWINDOWS : Z := 64%Z.
Definition WINSTA_ENUMERATE : Z := 256%Z.
Definition WINSTA_READSCREEN : Z := 512%Z.

Definition DESKTOP_READOBJECTS : Z := 1%Z.
Definition DESKTOP_CREATEWINDOW : Z := 2%Z.
Definition DESKTOP_CREATEMENU : Z := 4%Z.
Definition DESKTOP_HOOKCONTROL : Z := 8%Z.
Definition DESKTOP_JOURNALRECORD : Z := 16%Z.
Definition DESKTOP_JOURNALPLAYBACK : Z := 32%Z.
Definition DESKTOP_ENUMERATE : Z := 64%Z.
Definition DESKTOP_WRITEOBJECTS : Z := 128%Z.
Definition DESKTOP_SWITCHDESKTOP : Z := 256%Z.

Definition ACL_REVISION_DS : Z := 4%Z.

Definition STARTF_USESHOWWINDOW : Z := 1%Z.
Definition STARTF_USESTDHANDLES : Z := 256%Z.
Definition SW_HIDE : Z := 0%Z.

Definition WAIT_OBJECT_0 : Z := 0%Z.
Definition WAIT_TIMEOUT : Z := 258%Z.
Definition STILL_ACTIVE : Z := 259%Z.
End Win32.
Import Win32.

(** Python's [a | b] on integers. *)
Infix ".|" := Z.lor (at level 50, left associativity).

(** [win_utils.py], lines 25-62. *)
Definition GENERIC_ACCESS : Z :=
  GENERIC_READ .| GENERIC_WRITE .| GENERIC_EXECUTE .| GENERIC_ALL.

Definition WINSTA_ALL : Z :=
  WINSTA_ACCESSCLIPBOARD .| WINSTA_ACCESSGLOBALATOMS .| WINSTA_CREATEDESKTOP
  .| WINSTA_ENUMDESKTOPS .| WINSTA_ENUMERATE .| WINSTA_EXITWINDOWS
  .| WINSTA_READATTRIBUTES .| WINSTA_READSCREEN .| WINSTA_WRITEATTRIBUTES
  .| DELETE .| READ_CONTROL .| WRITE_DAC .| WRITE_OWNER.

Definition DESKTOP_ALL : Z :=
  DESKTOP_CREATEMENU .| DESKTOP_CREATEWINDOW .| DESKTOP_ENUMERATE
  .| DESKTOP_HOOKCONTROL .| DESKTOP_JOURNALPLAYBACK .| DESKTOP_JOURNALRECORD
  .| DESKTOP_READOBJECTS .| DESKTOP_SWITCHDESKTOP .| DESKTOP_WRITEOBJECTS
  .| DELETE .| READ_CONTROL .| WRITE_DAC .| WRITE_OWNER.

(** ** Data *)

(** A security identifier, in its string form. *)
Definition SID : Type := string.

Inductive ace_kind := ACCESS_ALLOWED | ACCESS_DENIED.

(** One access-control entry. *)
Record ACE := mkACE {
  ace_type : ace_kind;
  ace_revision : Z;
  ace_mask : Z;
  ace_sid : SID
}.

(** The two securable objects the grantor touches. *)
Inductive kobj := WinSta0 | DefaultDesktop.

Definition kobj_eqb (a b : kobj) : bool :=
  match a, b with
  | WinSta0, WinSta0 | DefaultDesktop, DefaultDesktop => true
  | _, _ => false
  end.

(** Instances of Python's [Exception] that the code distinguishes. *)
Inductive exn :=
| PermissionError (msg : string)
| WinError (winerror : Z) (funcname : string)  (* pywintypes.error *)
| OSError (msg : string)
| IndexError
| TypeError (msg : string)
| AssertionError.

(** The process environment and keyword arguments are Python dicts. *)
Abbreviation env_block := (gmap string string).

(** [STARTUPINFO]: the fields the launcher reads or writes. *)
Record STARTUPINFO := mkSI {
  dwFlags : Z;
  hStdInput : Z;
  hStdOutput : Z;
  hStdError : Z;
  wShowWindow : Z
}.

(** A fresh [win32process.STARTUPINFO()]. *)
Definition STARTUPINFO_new : STARTUPINFO := mkSI 0 0 0 0 0.

(** The arguments of one [CreateProcessAsUser] call, in order. *)
Record create_args := mkCreate {
  cp_token : option Z;
  cp_appName : option string;
  cp_commandLine : string;
  cp_inheritHandles : Z;
  cp_creationFlags : Z;
  cp_env : option env_block;
  cp_cwd : option string;
  cp_startupinfo : STARTUPINFO
}.

(** Values found in the [popen_kwargs] dict. *)
Inductive kwval :=
| KNone
| KBool (b : bool)
| KInt (z : Z)
| KStr (s : string)
| KHandle (h : option Z)
| KEnv (e : env_block)
| KStartupInfo (si : STARTUPINFO).

Abbreviation kwargs := (gmap string kwval).

(** Log records: the level and which message of the source it is, with
    the values the message is formatted with. *)
Inductive level := WARNING | ERROR | INFO.

Inductive logmsg :=
| Msg_setup_sacl_failed (sid : SID) (exc : exn)            (* win_utils 146 *)
| Msg_exit_detach_failed (exc : exn)                       (* win_utils 213 *)
| Msg_failed_to_setup_sacl (exc : exn)                     (* win_utils 320 *)
| Msg_create_last_error (err : Z) (args : string)          (* win_utils 342 *)
| Msg_exited_immediately (code : Z) (args : string)        (* win_utils 353 *)
| Msg_create_exception (exc : exn)                         (* win_utils 360 *)
| Msg_close_pipe_failed (name : string) (exc : exn)        (* win_utils 399 *)
| Msg_close_devnull_failed (exc : exn)                     (* win_utils 406 *)
| Msg_spawning (cmdline : string)                          (* spawner 89 *)
| Msg_token_handle_failed (exc : exn)                      (* spawner 99 *)
| Msg_appdata_missing                                      (* spawner 114 *)
| Msg_user_env_failed (exc : exn)                          (* spawner 120 *)
| Msg_permission_denied (script : string)                  (* spawner 142 *)
| Msg_start_failed (exc : exn)                             (* spawner 146 *)
| Msg_detach_failed (exc : exn)                            (* spawner 154 *)
| Msg_notebook_dir_missing (dir : string)                  (* spawner 191 *)
| Msg_getcwd_failed (exc : exn)                            (* spawner 204 *)
| Msg_using_temp_dir (dir : string).                       (* spawner 208 *)

(** Calls that leave the Python process. *)
Inductive oscall :=
| OpenWindowStation (name : string) (access : Z)
| OpenDesktop (name : string) (access : Z)
| GetUserObjectSecurity (o : kobj)
| AddAccessAllowedAce (rev mask : Z) (sid : SID)
| SetSecurityInfo (o : kobj) (dacl : list ACE)
| GetTokenInformation (token : Z)
| CreateProcessAsUser (a : create_args)
| GetLastError
| WaitForSingleObject (h ms : Z)
| GetExitCodeProcess (h : Z)
| Handle_Close (name : string) (h : Z)     (* subprocess.Handle.Close *)
| os_close_fd (fd : Z)                      (* os.close *)
| CloseHandle (h : Z)                       (* kernel32.CloseHandle *)
| PyHANDLE_Detach (h : Z)                   (* PyHANDLE.Detach *)
| PyHANDLE_new (v : Z)                      (* pywintypes.HANDLE *)
| CreateEnvironmentBlock (token : Z)
| os_getcwd
| mkdtemp
| shutil_which (name : string)
| PopenAsUser_call (cmd : list string) (kw : kwargs)
| server_set_ip (ip : string)               (* self.server.ip = ... *)
| server_set_port (port : Z)                (* self.server.port = ... *)
| db_commit.                                (* self.db.commit() *)

Inductive event :=
| Call (c : oscall)
| Log (l : level) (m : logmsg).

(** ** The operating system, as the code sees it *)

(** What each call answers.  [None] (or [inr]) is success; an [exn] is the
    exception the Python binding raises. *)
Record oracle := mkOracle {
  os_OpenWindowStation : option exn;
  os_OpenDesktop : option exn;
  os_GetUserObjectSecurity : kobj -> option exn;
  os_AddAccessAllowedAce : list ACE -> Z -> SID -> option exn;
  os_SetSecurityInfo : kobj -> list ACE -> option exn;
  os_GetTokenInformation : Z -> exn + SID;
  os_CreateProcessAsUser : exn + (Z * Z * Z * Z);
  os_GetLastError : Z;
  os_WaitForSingleObject : exn + Z;
  os_GetExitCodeProcess : exn + Z;
  os_Handle_Close : Z -> option exn;
  os_close : Z -> option exn;
  os_CloseHandle : Z -> bool;
  os_PyHANDLE : Z -> exn + Z;
  os_Detach : Z -> option exn;
  os_CreateEnvironmentBlock : Z -> exn + env_block;
  os_getcwd_result : exn + string;
  os_mkdtemp_result : exn + string;
  os_which : string -> option string;
  os_environ : env_block;
  os_inheritable : string -> exn + N;
  os_pipe_parent_end : string -> N;
  os_devnull : Z;
  sys_version_info : nat * nat;          (* (major, minor) *)
  os_server_ip : string -> option exn;
  os_server_port : Z -> option exn;
  os_db_commit : option exn
}.

(** The part of the machine the code reads back: object DACLs and the
    directories on disk. *)
Record world := mkWorld {
  w_dacl : kobj -> option (list ACE);
  w_dirs : gset string
}.

(** ** The monad: an oracle, state, a trace, and Python exceptions *)

(** What running a piece of code leaves behind: the calls and log records
    it made (oldest first), the world afterwards, and either the raised
    exception or the value. *)
Record outcome (A : Type) := Out {
  trace : list event;
  final : world;
  result : exn + A
}.
Arguments Out {A} _ _ _.
Arguments trace {A} _.
Arguments final {A} _.
Arguments result {A} _.

Definition M (A : Type) : Type := oracle -> world -> outcome A.

Definition ret {A} (a : A) : M A := fun _ w => Out [] w (inr a).

Definition raise {A} (e : exn) : M A := fun _ w => Out [] w (inl e).

Definition bind {A B} (m : M A) (f : A -> M B) : M B :=
  fun os w =>
    match m os w with
    | Out t w1 (inl e) => Out t w1 (inl e)
    | Out t w1 (inr a) =>
        match f a os w1 with
        | Out t' w2 r => Out (t ++ t') w2 r
        end
    end.

Notation "x <- m ;; k" := (bind m (fun x => k))
  (at level 100, m at next level, right associativity).
Notation "m ;;; k" := (bind m (fun _ => k))
  (at level 100, right associativity).

(** [try: m  except Exception as exc: h exc]. *)
Definition try_except {A} (m : M A) (h : exn -> M A) : M A :=
  fun os w =>
    match m os w with
    | Out t w1 (inl e) =>
        match h e os w1 with
        | Out t' w2 r => Out (t ++ t') w2 r
        end
    | Out t w1 (inr a) => Out t w1 (inr a)
    end.

(** [try: m  finally: c]: [c] always runs; if it raises, its exception
    replaces the outcome of [m]. *)
Definition try_finally {A} (m : M A) (c : M unit) : M A :=
  fun os w =>
    match m os w with
    | Out t w1 r =>
        match c os w1 with
        | Out t' w2 (inl e) => Out (t ++ t') w2 (inl e)
        | Out t' w2 (inr _) => Out (t ++ t') w2 r
        end
    end.

Definition emit (ev : event) : M unit := fun _ w => Out [ev] w (inr tt).

Definition ask : M oracle := fun os w => Out [] w (inr os).

Definition log (l : level) (m : logmsg) : M unit := emit (Log l m).

(** Lift the oracle's answer. *)
Definition answer {A} (r : exn + A) : M A :=
  fun _ w => Out [] w r.

Definition check (r : option exn) : M unit :=
  fun _ w => Out [] w (match r with Some e => inl e | None => inr tt end).

Definition get_dacl (o : kobj) : M (option (list ACE)) :=
  fun _ w => Out [] w (inr (w_dacl w o)).

Definition put_dacl (o : kobj) (d : list ACE) : M unit :=
  fun _ w => Out [] (mkWorld (fun o' => if kobj_eqb o' o then Some d
                                        else w_dacl w o')
                             (w_dirs w)) (inr tt).

(** ** [win_utils.setup_sacl] *)

Module Grantor.

Definition open_window_station (name : string) (access : Z) : M kobj :=
  emit (Call (OpenWindowStation name access)) ;;;
  os <- ask ;; check (os_OpenWindowStation os) ;;; ret WinSta0.

Definition open_desktop (name : string) (access : Z) : M kobj :=
  emit (Call (OpenDesktop name access)) ;;;
  os <- ask ;; check (os_OpenDesktop os) ;;; ret DefaultDesktop.

(** [GetUserObjectSecurity(h, ...).GetSecurityDescriptorDacl()]: the
    object's DACL, [None] when it has none. *)
Definition get_security_descriptor_dacl (h : kobj) : M (option (list ACE)) :=
  emit (Call (GetUserObjectSecurity h)) ;;;
  os <- ask ;; check (os_GetUserObjectSecurity os h) ;;; get_dacl h.

(** [win32security.ACL()]. *)
Definition ACL_new : list ACE := [].

(** [dacl.AddAccessAllowedAce(rev, mask, sid)]: the entry goes to the end
    of the list. *)
Definition add_access_allowed_ace (dacl : list ACE) (rev mask : Z) (sid : SID)
  : M (list ACE) :=
  emit (Call (AddAccessAllowedAce rev mask sid)) ;;;
  os <- ask ;; check (os_AddAccessAllowedAce os dacl mask sid) ;;;
  ret (dacl ++ [mkACE ACCESS_ALLOWED rev mask sid]).

(** [SetSecurityInfo(h, SE_WINDOW_OBJECT, DACL_SECURITY_INFORMATION,
    None, None, dacl, None)]. *)
Definition set_security_info (h : kobj) (dacl : list ACE) : M unit :=
  emit (Call (SetSecurityInfo h dacl)) ;;;
  os <- ask ;; check (os_SetSecurityInfo os h dacl) ;;; put_dacl h dacl.

Definition setup_sacl (user_group_sid : SID) : M unit :=
  try_except
    (h_win_sta <- open_window_station "winsta0" (READ_CONTROL .| WRITE_DAC) ;;
     dacl_win_sta <- get_security_descriptor_dacl h_win_sta ;;
     let dacl_win_sta :=
       match dacl_win_sta with None => ACL_new | Some d => d end in
     dacl_win_sta <- add_access_allowed_ace dacl_win_sta ACL_REVISION_DS
                       GENERIC_ACCESS user_group_sid ;;
     dacl_win_sta <- add_access_allowed_ace dacl_win_sta ACL_REVISION_DS
                       WINSTA_ALL user_group_sid ;;
     set_security_info h_win_sta dacl_win_sta ;;;
     h_desktop <- open_desktop "default"
                    (READ_CONTROL .| WRITE_DAC .| DESKTOP_WRITEOBJECTS
                     .| DESKTOP_READOBJECTS) ;;
     dacl_desktop <- get_security_descriptor_dacl h_desktop ;;
     let dacl_desktop :=
       match dacl_desktop with None => ACL_new | Some d => d end in
     dacl_desktop <- add_access_allowed_ace dacl_desktop ACL_REVISION_DS
                       GENERIC_ACCESS user_group_sid ;;
     dacl_desktop <- add_access_allowed_ace dacl_desktop ACL_REVISION_DS
                       DESKTOP_ALL user_group_sid ;;
     set_security_info h_desktop dacl_desktop)
    (fun exc =>
       log ERROR (Msg_setup_sacl_failed user_group_sid exc) ;;; raise exc).

End Grantor.

(** ** Command lines: [subprocess.list2cmdline] and [shlex.quote]

    Both belong to the Python standard library; they are transcribed from
    CPython because [start] and [do_execute_child] build the command line
    with them. *)

Module Cmdline.

Definition dquote : ascii := "034"%char.
Definition squote : ascii := "039"%char.
Definition backslash : ascii := "092"%char.
Definition space : ascii := "032"%char.
Definition tab : ascii := "009"%char.

(** A one-character string. *)
Definition chr (c : ascii) : string := String c EmptyString.

(** [c in s]. *)
Fixpoint contains (c : ascii) (s : string) : bool :=
  match s with
  | EmptyString => false
  | String d rest => Ascii.eqb c d || contains c rest
  end.

Definition is_empty (s : string) : bool :=
  match s with EmptyString => true | _ => false end.

Definition nonempty {A} (l : list A) : bool :=
  match l with [] => false | _ => true end.

(** [s * n]. *)
Fixpoint str_repeat (s : string) (n : nat) : string :=
  match n with
  | O => EmptyString
  | S k => s +:+ str_repeat s k
  end.

(** [sep.join(pieces)]. *)
Definition join (sep : string) (pieces : list string) : string :=
  String.concat sep pieces.

(** The body of [for c in arg] of [list2cmdline], on the pair
    [(result, bs_buf)]. *)
Definition l2c_char (st : list string * list string) (c : ascii)
  : list string * list string :=
  let '(result, bs_buf) := st in
  if Ascii.eqb c backslash then
    (result, bs_buf ++ [chr c])
  else if Ascii.eqb c dquote then
    (result ++ [str_repeat (chr backslash) (length bs_buf * 2)]
            ++ [chr backslash +:+ chr dquote], [])
  else
    ((if nonempty bs_buf then result ++ bs_buf else result) ++ [chr c], []).

Fixpoint l2c_chars (arg : string) (st : list string * list string)
  : list string * list string :=
  match arg with
  | EmptyString => st
  | String c rest => l2c_chars rest (l2c_char st c)
  end.

Definition needquote (arg : string) : bool :=
  contains space arg || contains tab arg || is_empty arg.

(** The body of [for arg in seq]. *)
Definition l2c_arg (result : list string) (arg : string) : list string :=
  let result := if nonempty result then result ++ [chr space] else result in
  let result := if needquote arg then result ++ [chr dquote] else result in
  let '(result, bs_buf) := l2c_chars arg (result, []) in
  let result := if nonempty bs_buf then result ++ bs_buf else result in
  if needquote arg then result ++ bs_buf ++ [chr dquote] else result.

Definition list2cmdline (seq : list string) : string :=
  join EmptyString (fold_left l2c_arg seq []).

(** [[^\w@%+=:,./-]] with [re.ASCII]: the characters that are not
    unsafe. *)
Definition is_safe (c : ascii) : bool :=
  let n := nat_of_ascii c in
  (((97 <=? n) && (n <=? 122)) || ((65 <=? n) && (n <=? 90))
   || ((48 <=? n) && (n <=? 57))
   || (n =? 95) || (n =? 64) || (n =? 37) || (n =? 43) || (n =? 61)
   || (n =? 58) || (n =? 44) || (n =? 46) || (n =? 47) || (n =? 45))%nat.

Fixpoint all_safe (s : string) : bool :=
  match s with
  | EmptyString => true
  | String c rest => is_safe c && all_safe rest
  end.

(** [s.replace(q, new)] for the single quote [q]. *)
Fixpoint replace_squote (new : string) (s : string) : string :=
  match s with
  | EmptyString => EmptyString
  | String c rest =>
      if Ascii.eqb c squote then new +:+ replace_squote new rest
      else String c (replace_squote new rest)
  end.

(** Five characters: single, double, single, double, single quote. *)
Definition squote_escape : string :=
  String squote (String dquote (String squote (String dquote (chr squote)))).

(** [shlex.quote]. *)
Definition quote (s : string) : string :=
  if is_empty s then chr squote +:+ chr squote
  else if all_safe s then s
  else chr squote +:+ replace_squote squote_escape s +:+ chr squote.

End Cmdline.

(** ** [win_utils.PopenAsUser] *)

Module PopenAsUser.
Import Cmdline.

(** The attributes of a [PopenAsUser] object the code touches.  A
    [PyHANDLE] is its integer value; it is truthy when it is not null. *)
Record popen_obj := mkPopen {
  _token : option Z;
  _devnull : option Z;          (* present when [hasattr(self, '_devnull')] *)
  _child_created : bool;
  _handle : option Z;
  pid : option Z
}.

(** Truth value of [None] or a handle. *)
Definition truthy (h : option Z) : bool :=
  match h with
  | None => false
  | Some v => negb (v =? 0)%Z
  end.

(** *** Primitives *)

Definition get_token_information (token : Z) : M SID :=
  emit (Call (GetTokenInformation token)) ;;;
  os <- ask ;; answer (os_GetTokenInformation os token).

Definition create_process_as_user (a : create_args) : M (Z * Z * Z * Z) :=
  emit (Call (CreateProcessAsUser a)) ;;;
  os <- ask ;; answer (os_CreateProcessAsUser os).

Definition get_last_error : M Z :=
  emit (Call GetLastError) ;;; os <- ask ;; ret (os_GetLastError os).

Definition wait_for_single_object (h ms : Z) : M Z :=
  emit (Call (WaitForSingleObject h ms)) ;;;
  os <- ask ;; answer (os_WaitForSingleObject os).

Definition get_exit_code_process (h : Z) : M Z :=
  emit (Call (GetExitCodeProcess h)) ;;;
  os <- ask ;; answer (os_GetExitCodeProcess os).

(** [handle.Close()] on a [subprocess.Handle]. *)
Definition handle_close (name : string) (h : Z) : M unit :=
  emit (Call (Handle_Close name h)) ;;;
  os <- ask ;; check (os_Handle_Close os h).

Definition os_close_ (fd : Z) : M unit :=
  emit (Call (os_close_fd fd)) ;;; os <- ask ;; check (os_close os fd).

(** What ctypes makes of a Python integer passed for a [c_uint]
    parameter: its low 32 bits. *)
Definition c_uint (n : Z) : Z := (n mod 2 ^ 32)%Z.

(** [CLOSEHANDLE(int(ht))], the ctypes binding of [kernel32.CloseHandle]
    with [argtypes = [HANDLE]], [HANDLE] being [c_uint]: the integer is cut
    to 32 bits, and the call returns a BOOL and never raises.  Only this
    explicit call is recorded.  What the interpreter does when it releases
    a [PyHANDLE] object that was not detached (it closes the handle) is no
    call of this code and is not part of the trace. *)
Definition CLOSEHANDLE (h : Z) : M bool :=
  emit (Call (CloseHandle (c_uint h))) ;;;
  os <- ask ;; ret (os_CloseHandle os (c_uint h)).

(** [h.Detach()]: gives the integer up and leaves the handle open. *)
Definition Detach (h : Z) : M Z :=
  emit (Call (PyHANDLE_Detach h)) ;;;
  os <- ask ;; check (os_Detach os h) ;;; ret h.

(** [for x in l: body x]. *)
Fixpoint for_each {A} (l : list A) (body : A -> M unit) : M unit :=
  match l with
  | [] => ret tt
  | x :: rest => body x ;;; for_each rest body
  end.

(** *** [_close_pipe_handles] *)
Definition _close_pipe_handles (self : popen_obj) (p2cread c2pwrite errwrite : Z)
  : M unit :=
  let handles_to_close :=
    [(p2cread, "p2cread"); (c2pwrite, "c2pwrite"); (errwrite, "errwrite")] in
  for_each handles_to_close
    (fun '(handle, name) =>
       if negb (handle =? -1)%Z then
         try_except (handle_close name handle)
           (fun exc => log WARNING (Msg_close_pipe_failed name exc))
       else ret tt) ;;;
  match _devnull self with
  | Some fd =>
      try_except (os_close_ fd)
        (fun exc => log WARNING (Msg_close_devnull_failed exc))
  | None => ret tt
  end.

(** *** [do_execute_child] *)
Definition do_execute_child (self : popen_obj)
    (args : string + list string) (executable : option string)
    (close_fds : bool) (pass_fds : list Z)
    (cwd : option string) (env : option env_block)
    (startupinfo : option STARTUPINFO) (creationflags : Z) (shell : bool)
    (p2cread p2cwrite c2pread c2pwrite errread errwrite : Z)
  : M popen_obj :=
  (if nonempty pass_fds then raise AssertionError else ret tt) ;;;
  let args := match args with inl s => s | inr seq => list2cmdline seq end in
  (* Process startup details *)
  let startupinfo :=
    match startupinfo with None => STARTUPINFO_new | Some si => si end in
  let startupinfo :=
    if negb ((p2cread =? -1) || (c2pwrite =? -1) || (errwrite =? -1))%Z then
      mkSI (dwFlags startupinfo .| STARTF_USESTDHANDLES)
           p2cread c2pwrite errwrite (wShowWindow startupinfo)
    else startupinfo in
  os <- ask ;;
  let '(startupinfo, args) :=
    if shell then
      let comspec := default "cmd.exe" (os_environ os !! "COMSPEC") in
      (mkSI (dwFlags startupinfo .| STARTF_USESHOWWINDOW)
            (hStdInput startupinfo) (hStdOutput startupinfo)
            (hStdError startupinfo) SW_HIDE,
       comspec +:+ " /c " +:+ chr dquote +:+ args +:+ chr dquote)
    else (startupinfo, args) in
  (* Setup security access control list if we have a token *)
  (if truthy (_token self) then
     try_except
       (sid <- get_token_information (default 0%Z (_token self)) ;;
        Grantor.setup_sacl sid)
       (fun exc => log WARNING (Msg_failed_to_setup_sacl exc))
   else ret tt) ;;;
  (* Start the process *)
  created <-
    try_finally
      (try_except
         (created <- create_process_as_user
                       (mkCreate (_token self) executable args
                                 (Z.b2z (negb close_fds)) creationflags
                                 env cwd startupinfo) ;;
          let '(hp, ht, pid, tid) := created in
          err <- get_last_error ;;
          (if negb (err =? 0)%Z then
             log ERROR (Msg_create_last_error err args)
           else
             wait_result <- wait_for_single_object hp 1000 ;;
             if (wait_result =? WAIT_OBJECT_0)%Z then
               exit_code <- get_exit_code_process hp ;;
               if negb (exit_code =? STILL_ACTIVE)%Z then
                 log ERROR (Msg_exited_immediately exit_code args)
               else ret tt
             else ret tt) ;;;
          ret created)
         (fun exc => log ERROR (Msg_create_exception exc) ;;; raise exc))
      (_close_pipe_handles self p2cread c2pwrite errwrite) ;;
  let '(hp, ht, pid_, tid) := created in
  try_finally
    (let self := mkPopen (_token self) (_devnull self) true
                         (_handle self) (pid self) in
     if negb (hp =? 0)%Z then
       h <- Detach hp ;;
       ret (mkPopen (_token self) (_devnull self) (_child_created self)
                    (Some h) (Some pid_))
     else ret self)
    (if negb (ht =? 0)%Z then CLOSEHANDLE ht ;;; ret tt else ret tt).

(** *** [_execute_child]

    The class body defines [_execute_child] once, with the parameter list
    that [sys.version_info] selects.  Whichever it is, the method hands its
    first sixteen arguments to [do_execute_child] and ignores the others;
    called with another number of arguments it raises [TypeError], as any
    Python function does. *)

(** [sys.version_info >= (major, minor)]. *)
Definition version_ge (v : nat * nat) (major minor : nat) : bool :=
  (major <? fst v)%nat || ((fst v =? major)%nat && (minor <=? snd v)%nat).

(** The number of parameters of [_execute_child] after [errwrite]: seven
    from Python 3.13 on, six from 3.9 on, two before. *)
Definition accepted_extras (v : nat * nat) : nat :=
  if version_ge v 3 13 then 7%nat
  else if version_ge v 3 9 then 6%nat
  else 2%nat.

Definition _execute_child (self : popen_obj)
    (args : string + list string) (executable : option string)
    (close_fds : bool) (pass_fds : list Z)
    (cwd : option string) (env : option env_block)
    (startupinfo : option STARTUPINFO) (creationflags : Z) (shell : bool)
    (p2cread p2cwrite c2pread c2pwrite errread errwrite : Z)
    (extras : nat)
  : M popen_obj :=
  os <- ask ;;
  if (extras =? accepted_extras (sys_version_info os))%nat then
    do_execute_child self args executable close_fds pass_fds cwd env
      startupinfo creationflags shell
      p2cread p2cwrite c2pread c2pwrite errread errwrite
  else
    raise (TypeError "_execute_child(): wrong number of positional arguments").

(** *** [Popen.__init__], as far as it feeds [_execute_child]

    [PopenAsUser.__init__] stores the token and calls
    [subprocess.Popen.__init__] with [preexec_fn=None], [close_fds=False]
    and [pass_fds=()].  That constructor (CPython, Windows branch) turns
    the three stream arguments into handles with [_get_handles] and calls
    [self._execute_child] with those handles and the arguments of its own
    version.  What it does after a failed [_execute_child] (it closes the
    parent's stream objects and re-raises) is left out. *)

(** The number of arguments [subprocess.Popen.__init__] (CPython) passes
    after [errwrite]: [restore_signals] and [start_new_session] always,
    [gid], [gids], [uid] and [umask] since Python 3.9, [process_group]
    since 3.11. *)
Definition passed_extras (v : nat * nat) : nat :=
  if version_ge v 3 11 then 7%nat
  else if version_ge v 3 9 then 6%nat
  else 2%nat.

(** What [stdin], [stdout] or [stderr] may be, apart from [None]. *)
Inductive redirect := PIPE | DEVNULL | STDOUT | FD (fd : Z).

Definition is_PIPE (r : option redirect) : bool :=
  match r with Some PIPE => true | _ => false end.

Definition is_DEVNULL (r : option redirect) : bool :=
  match r with Some DEVNULL => true | _ => false end.

(** [self._make_inheritable(h)]: a duplicate of the handle, which is a
    valid handle and so never [-1]. *)
Definition _make_inheritable (name : string) : M Z :=
  os <- ask ;; h <- answer (os_inheritable os name) ;; ret (Z.of_N h).

(** [Popen._get_handles]: with no redirection all six handles are [-1];
    otherwise each child end is the inheritable duplicate of a pipe end,
    of the null device, of the given file or of the launcher's own
    standard handle, and the parent ends exist for [PIPE] only. *)
Definition _get_handles (stdin stdout stderr : option redirect)
  : M (Z * Z * Z * Z * Z * Z) :=
  match stdin, stdout, stderr with
  | None, None, None => ret (-1, -1, -1, -1, -1, -1)%Z
  | _, _, _ =>
      os <- ask ;;
      let parent_end name r :=
        if is_PIPE r then Z.of_N (os_pipe_parent_end os name) else (-1)%Z in
      p2cread <- _make_inheritable "p2cread" ;;
      c2pwrite <- _make_inheritable "c2pwrite" ;;
      errwrite <- _make_inheritable "errwrite" ;;
      ret (p2cread, parent_end "p2cwrite" stdin,
           parent_end "c2pread" stdout, c2pwrite,
           parent_end "errread" stderr, errwrite)
  end.

(** The keyword arguments of [PopenAsUser] that reach
    [do_execute_child]. *)
Record popen_params := mkParams {
  pa_executable : option string;
  pa_stdin : option redirect;
  pa_stdout : option redirect;
  pa_stderr : option redirect;
  pa_shell : bool;
  pa_cwd : option string;
  pa_env : option env_block;
  pa_startupinfo : option STARTUPINFO;
  pa_creationflags : Z;
  pa_token : option Z
}.

Definition __init__ (args : string + list string) (p : popen_params)
  : M popen_obj :=
  let self := mkPopen (pa_token p) None false None None in
  os <- ask ;;
  handles <- _get_handles (pa_stdin p) (pa_stdout p) (pa_stderr p) ;;
  let '(p2cread, p2cwrite, c2pread, c2pwrite, errread, errwrite) := handles in
  let self :=
    if is_DEVNULL (pa_stdin p) || is_DEVNULL (pa_stdout p)
       || is_DEVNULL (pa_stderr p)
    then mkPopen (_token self) (Some (os_devnull os)) false None None
    else self in
  _execute_child self args (pa_executable p) false [] (pa_cwd p)
    (pa_env p) (pa_startupinfo p) (pa_creationflags p) (pa_shell p)
    p2cread p2cwrite c2pread c2pwrite errread errwrite
    (passed_extras (sys_version_info os)).

(** *** [__exit__] *)
Section Exit.

(** [subprocess.Popen.__exit__], which closes the parent's pipe ends and
    waits for the child. *)
Variable Popen__exit__ : popen_obj -> M unit.

Definition __exit__ (self : popen_obj) : M unit :=
  (* Detach to avoid invalidating underlying winhandle *)
  (if truthy (_token self) then
     try_except (Detach (default 0%Z (_token self)) ;;; ret tt)
       (fun exc => log WARNING (Msg_exit_detach_failed exc))
   else ret tt) ;;;
  Popen__exit__ self.

End Exit.

End PopenAsUser.

(** ** [winlocalprocessspawner.WinLocalProcessSpawner] *)

Module WinLocalProcessSpawner.
Import Cmdline.
Import PopenAsUser.

(** The configuration and collaborators of one spawner object.
    [base_env] is what [LocalProcessSpawner.get_env] returns, [args] what
    [self.get_args()] returns, [auth_state] what
    [self.user.get_auth_state()] resolves to and [random_port] the port
    [jupyterhub.utils.random_port] picks. *)
Record spawner := mkSpawner {
  user_name : string;
  cmd : list string;
  args : list string;
  shell_cmd : list string;
  notebook_dir : option string;
  popen_kwargs : kwargs;
  base_env : env_block;
  auth_state : option (gmap string Z);
  ip : string;
  random_port : Z
}.

(** Truth value of a string or [None]. *)
Definition str_truthy (s : option string) : bool :=
  match s with
  | Some s => negb (is_empty s)
  | None => false
  end.

(** [user_env]: the dictionary it is given, with [USER] set. *)
Definition user_env (self : spawner) (env : env_block) : env_block :=
  <["USER" := user_name self]> env.

Definition win_env_keep : list string :=
  ["SYSTEMROOT"; "APPDATA"; "WINDIR"; "USERPROFILE"; "TEMP"].

(** [get_env]. *)
Definition get_env (self : spawner) : M env_block :=
  os <- ask ;;
  let env := base_env self in
  ret (fold_left
         (fun (env : env_block) key =>
            match os_environ os !! key with
            | Some v => <[key := v]> env
            | None => env
            end)
         win_env_keep env).

(** *** Primitives *)

Definition HANDLE (v : Z) : M Z :=
  emit (Call (PyHANDLE_new v)) ;;; os <- ask ;; answer (os_PyHANDLE os v).

Definition create_environment_block (token : Z) : M env_block :=
  emit (Call (CreateEnvironmentBlock token)) ;;;
  os <- ask ;; answer (os_CreateEnvironmentBlock os token).

(** [os.path.isdir]. *)
Definition isdir (path : string) : M bool :=
  fun _ w => Out [] w (inr (bool_decide (path ∈ w_dirs w))).

Definition getcwd : M string :=
  emit (Call os_getcwd) ;;; os <- ask ;; answer (os_getcwd_result os).

(** [tempfile.mkdtemp()]: creates a directory that did not exist and
    returns its path; it raises when no unused name is found. *)
Definition mkdtemp_ : M string :=
  emit (Call mkdtemp) ;;;
  os <- ask ;;
  d <- answer (os_mkdtemp_result os) ;;
  fun _ w =>
    if bool_decide (d ∈ w_dirs w)
    then Out [] w (inl (OSError "No usable temporary directory name found"))
    else Out [] (mkWorld (w_dacl w) ({[d]} ∪ w_dirs w)) (inr d).

(** [self.server.ip = ip], [self.server.port = port] and
    [self.db.commit()], on the hub's objects. *)
Definition assign_server_ip (ip : string) : M unit :=
  emit (Call (server_set_ip ip)) ;;; os <- ask ;; check (os_server_ip os ip).

Definition assign_server_port (port : Z) : M unit :=
  emit (Call (server_set_port port)) ;;;
  os <- ask ;; check (os_server_port os port).

Definition commit : M unit :=
  emit (Call db_commit) ;;; os <- ask ;; check (os_db_commit os).

(** [shutil.which(name) or name]. *)
Definition which_or (name : string) : M string :=
  emit (Call (shutil_which name)) ;;;
  os <- ask ;;
  ret (if str_truthy (os_which os name) then default name (os_which os name)
       else name).

(** *** [_determine_working_directory] *)
Definition _determine_working_directory (self : spawner)
    (user_env : option env_block) : M string :=
  chosen <-
    (if str_truthy (notebook_dir self) then
       let dir := default EmptyString (notebook_dir self) in
       b <- isdir dir ;;
       if b then ret (Some dir)
       else log WARNING (Msg_notebook_dir_missing dir) ;;; ret None
     else ret None) ;;
  match chosen with
  | Some dir => ret dir
  | None =>
      let profile := user_env ≫= (.!! "USERPROFILE") in
      chosen <-
        (if str_truthy profile then
           let userprofile := default EmptyString profile in
           b <- isdir userprofile ;;
           ret (if b then Some userprofile else None)
         else ret None) ;;
      match chosen with
      | Some dir => ret dir
      | None =>
          (* Try current working directory *)
          chosen <-
            try_except (cwd <- getcwd ;; ret (Some cwd))
              (fun exc => log WARNING (Msg_getcwd_failed exc) ;;; ret None) ;;
          match chosen with
          | Some dir => ret dir
          | None =>
              (* Last resort: create a temporary directory *)
              temp_dir <- mkdtemp_ ;;
              log WARNING (Msg_using_temp_dir temp_dir) ;;;
              ret temp_dir
          end
      end
  end.

(** *** [start] *)
Section Start.

(** The constructor call [PopenAsUser(cmd, **popen_kwargs)]. *)
Variable PopenAsUser : list string -> kwargs -> M popen_obj.

Definition start (self : spawner) : M (popen_obj * (string * Z)) :=
  let port := random_port self in
  env <- get_env self ;;
  let cmd := cmd self ++ args self in
  let cmd :=
    if nonempty (shell_cmd self) then
      shell_cmd self ++ [join " " (map quote cmd)]
    else cmd in
  log INFO (Msg_spawning (join " " (map quote cmd))) ;;;
  (* Get authentication token from auth_state *)
  let token_value := auth_state self ≫= (.!! "auth_token") in
  token <-
    (if truthy token_value then
       try_except (h <- HANDLE (default 0%Z token_value) ;; ret (Some h))
         (fun exc => log WARNING (Msg_token_handle_failed exc) ;;; ret None)
     else ret None) ;;
  (* Load user environment if token is available *)
  loaded <-
    (if truthy token then
       try_except
         (user_env <- create_environment_block (default 0%Z token) ;;
          let env : env_block := user_env ∪ env in
          if negb (str_truthy (user_env !! "APPDATA")) then
            log WARNING Msg_appdata_missing ;;;
            ret (env,
                 Some (match user_env !! "PUBLIC" with
                       | Some public => <["USERPROFILE" := public]> user_env
                       | None => user_env
                       end))
          else ret (env, Some user_env))
         (fun exc => log WARNING (Msg_user_env_failed exc) ;;; ret (env, None))
     else ret (env, None)) ;;
  let '(env, user_env) := loaded in
  (* Set working directory *)
  cwd <- _determine_working_directory self user_env ;;
  let kw : kwargs :=
    <["token" := KHandle token]> (<["cwd" := KStr cwd]> ∅) in
  let kw : kwargs := popen_kwargs self ∪ kw in
  (* don't let user config override env *)
  let kw : kwargs := <["env" := KEnv env]> kw in
  proc <-
    try_finally
      (try_except
         (emit (Call (PopenAsUser_call cmd kw)) ;;; PopenAsUser cmd kw)
         (fun exc =>
            match exc with
            | PermissionError _ =>
                (* use which to get abspath *)
                script <- match cmd with
                          | [] => raise IndexError
                          | cmd0 :: _ => which_or cmd0
                          end ;;
                log ERROR (Msg_permission_denied script) ;;; raise exc
            | _ => log ERROR (Msg_start_failed exc) ;;; raise exc
            end))
      (* Always clean up token handle *)
      (if truthy token then
         try_except (Detach (default 0%Z token) ;;; ret tt)
           (fun exc => log WARNING (Msg_detach_failed exc))
       else ret tt) ;;
  (* Handle compatibility with different JupyterHub versions:
     [self.__class__ is not LocalProcessSpawner] holds of this subclass *)
  (if negb (is_empty (ip self)) then assign_server_ip (ip self)
   else ret tt) ;;;
  assign_server_port port ;;;
  commit ;;;
  ret (proc, (if is_empty (ip self) then "127.0.0.1" else ip self, port)).

End Start.

End WinLocalProcessSpawner.

(** * Properties *)

(** ** Running the monad in proofs *)

Ltac run :=
  repeat progress
    (unfold bind, try_except, try_finally, emit, ask, log, answer, check, ret,
       raise, get_dacl, put_dacl;
     cbn).

(** *** Reading a trace *)

(** The constructor call [start] made: the first [PopenAsUser_call] of the
    trace (what follows it belongs to the constructor and to the cleanup). *)
Fixpoint popen_call (t : list event) : option (list string * kwargs) :=
  match t with
  | [] => None
  | Call (PopenAsUser_call c k) :: _ => Some (c, k)
  | _ :: rest => popen_call rest
  end.

(** The token [CreateEnvironmentBlock] was called with before the
    constructor call, if it was called. *)
Fixpoint profile_call (t : list event) : option Z :=
  match t with
  | [] => None
  | Call (CreateEnvironmentBlock tok) :: _ => Some tok
  | Call (PopenAsUser_call _ _) :: _ => None
  | _ :: rest => profile_call rest
  end.

(** The user-profile-derived block that was loaded, if any. *)
Definition loaded_profile (os : oracle) (t : list event) : option env_block :=
  match profile_call t with
  | Some tok =>
      match os_CreateEnvironmentBlock os tok with
      | inr ue => Some ue
      | inl _ => None
      end
  | None => None
  end.

(** Like [run], but [try: ... finally: ...] blocks stay folded. *)
Ltac run_keep :=
  repeat progress
    (unfold bind, try_except, emit, ask, log, answer, check, ret, raise;
     cbn).

(** Case analysis on the next answer of the operating system (never on a
    whole sub-computation, nor on what is read off a trace); [r] resumes
    the run. *)
Ltac split_answer_with r :=
  match goal with
  | u : unit |- _ => destruct u
  | H : ?x = _ |- context [match ?x with _ => _ end] => rewrite H; r
  | |- context [match ?x with _ => _ end] =>
      lazymatch type of x with
      | outcome _ => fail
      | _ =>
          lazymatch x with
          | context [match _ with _ => _ end] => fail
          | context [loaded_profile] => fail
          | context [profile_call] => fail
          | context [popen_call] => fail
          | _ => destruct x eqn:?; r
          end
      end
  end.

Ltac split_answer := split_answer_with run.

Ltac use_dacl :=
  repeat match goal with H : w_dacl _ _ = _ |- _ => rewrite H end; cbn.

(** ** The access grantor *)

Section GrantorFacts.
Import Grantor.

(** The entries of a DACL; an object without DACL has none. *)
Definition entries (d : option (list ACE)) : list ACE := default [] d.

(** The entry [AddAccessAllowedAce(ACL_REVISION_DS, mask, sid)] adds. *)
Definition allow (mask : Z) (sid : SID) : ACE :=
  mkACE ACCESS_ALLOWED ACL_REVISION_DS mask sid.


(** Events only the grantor produces. *)
Definition is_grantor_call (ev : event) : bool :=
  match ev with
  | Call (OpenWindowStation _ _) | Call (OpenDesktop _ _)
  | Call (GetUserObjectSecurity _) | Call (AddAccessAllowedAce _ _ _)
  | Call (SetSecurityInfo _ _) => true
  | _ => false
  end.

Ltac unfold_grantor :=
  unfold setup_sacl, open_window_station, open_desktop,
    get_security_descriptor_dacl, add_access_allowed_ace, set_security_info.

Lemma mask_values :
  GENERIC_ACCESS = (-268435456)%Z /\ WINSTA_ALL = 983935%Z
  /\ DESKTOP_ALL = 983551%Z.
Proof. repeat split. Qed.

(** Each mask holds every right it is built from. *)
Lemma masks_cover :
  Forall (fun r => Z.land GENERIC_ACCESS r = r)
    [GENERIC_READ; GENERIC_WRITE; GENERIC_EXECUTE; GENERIC_ALL]
  /\ Forall (fun r => Z.land WINSTA_ALL r = r)
       [WINSTA_ACCESSCLIPBOARD; WINSTA_ACCESSGLOBALATOMS;
        WINSTA_CREATEDESKTOP; WINSTA_ENUMDESKTOPS; WINSTA_ENUMERATE;
        WINSTA_EXITWINDOWS; WINSTA_READATTRIBUTES; WINSTA_READSCREEN;
        WINSTA_WRITEATTRIBUTES; DELETE; READ_CONTROL; WRITE_DAC; WRITE_OWNER]
  /\ Forall (fun r => Z.land DESKTOP_ALL r = r)
       [DESKTOP_CREATEMENU; DESKTOP_CREATEWINDOW; DESKTOP_ENUMERATE;
        DESKTOP_HOOKCONTROL; DESKTOP_JOURNALPLAYBACK; DESKTOP_JOURNALRECORD;
        DESKTOP_READOBJECTS; DESKTOP_SWITCHDESKTOP; DESKTOP_WRITEOBJECTS;
        DELETE; READ_CONTROL; WRITE_DAC; WRITE_OWNER].
Proof. repeat split; repeat constructor. Qed.

(** The grantor starts by opening the window station, and everything it
    does is a grantor call or its one error record. *)
Lemma setup_sacl_trace (sid : SID) (os : oracle) (w : world) :
  let o := setup_sacl sid os w in
  (exists t, trace o =
             Call (OpenWindowStation "winsta0" (READ_CONTROL .| WRITE_DAC)) :: t)
  /\ Forall (fun ev => is_grantor_call ev = true
                       \/ exists e, ev = Log ERROR (Msg_setup_sacl_failed sid e))
       (trace o).
Proof.
  unfold_grantor. run. repeat split_answer.
  all: split; [by eexists |].
  all: repeat (apply Forall_cons; split; [first [by left | right; by eexists] |]).
  all: apply Forall_nil; exact I.
Qed.



End GrantorFacts.

(** ** The launcher: [do_execute_child] *)

Arguments Grantor.setup_sacl : simpl never.
Arguments PopenAsUser._close_pipe_handles : simpl never.

Section LauncherFacts.
Import Grantor Cmdline PopenAsUser.

(** *** What [_close_pipe_handles] does *)

(** Closing one child end: nothing for [-1]; otherwise one [Close], and a
    warning when it raised. *)
Definition close_one (os : oracle) (name : string) (h : Z) : list event :=
  if (h =? -1)%Z then []
  else Call (Handle_Close name h)
       :: match os_Handle_Close os h with
          | Some e => [Log WARNING (Msg_close_pipe_failed name e)]
          | None => []
          end.

Definition close_devnull (os : oracle) (self : popen_obj) : list event :=
  match _devnull self with
  | Some fd =>
      Call (os_close_fd fd)
      :: match os_close os fd with
         | Some e => [Log WARNING (Msg_close_devnull_failed e)]
         | None => []
         end
  | None => []
  end.

Definition pipe_close_trace (os : oracle) (self : popen_obj)
    (p2cread c2pwrite errwrite : Z) : list event :=
  close_one os "p2cread" p2cread ++ close_one os "c2pwrite" c2pwrite
  ++ close_one os "errwrite" errwrite ++ close_devnull os self.

(** The three closes are attempted one after the other whatever the
    earlier ones did, nothing is raised and the world is untouched. *)
Lemma close_pipe_handles_run self a b c os w :
  _close_pipe_handles self a b c os w
  = Out (pipe_close_trace os self a b c) w (inr tt).
Proof.
  unfold _close_pipe_handles, pipe_close_trace, close_one, close_devnull,
    handle_close, os_close_.
  run.
  destruct (a =? -1)%Z, (b =? -1)%Z, (c =? -1)%Z; cbn;
    repeat split_answer; rewrite ?app_nil_r; cbn; reflexivity.
Qed.

Definition is_pipe_event (ev : event) : bool :=
  match ev with
  | Call (Handle_Close _ _) | Call (os_close_fd _)
  | Log WARNING (Msg_close_pipe_failed _ _)
  | Log WARNING (Msg_close_devnull_failed _) => true
  | _ => false
  end.

Lemma pipe_close_trace_events os self a b c :
  Forall (fun ev => is_pipe_event ev = true) (pipe_close_trace os self a b c).
Proof.
  unfold pipe_close_trace, close_one, close_devnull.
  rewrite !Forall_app.
  repeat split; repeat case_match; repeat constructor.
Qed.

Lemma pipe_close_attempts os self a b c name h :
  In (h, name) [(a, "p2cread"); (b, "c2pwrite"); (c, "errwrite")] ->
  h <> (-1)%Z ->
  In (Call (Handle_Close name h)) (pipe_close_trace os self a b c).
Proof.
  intros Hin Hh. apply Z.eqb_neq in Hh.
  unfold pipe_close_trace, close_one. rewrite !in_app_iff.
  destruct Hin as [[= <- <-] | [[= <- <-] | [[= <- <-] | []]]];
    rewrite Hh; cbn; tauto.
Qed.

Definition is_identity_call (ev : event) : bool :=
  match ev with Call (GetTokenInformation _) => true | _ => false end.




Lemma pipe_close_not_grant os self a b c :
  Forall (fun ev => is_identity_call ev = false /\ is_grantor_call ev = false)
    (pipe_close_trace os self a b c).
Proof.
  eapply Forall_impl; [apply pipe_close_trace_events |].
  intros [[]|[] []]; by cbn.
Qed.

Lemma setup_sacl_no_other_calls sid os w c :
  is_grantor_call (Call c) = false ->
  ~ In (Call c) (trace (setup_sacl sid os w)).
Proof.
  intros Hc Hin. destruct (setup_sacl_trace sid os w) as [_ Hall].
  rewrite Forall_forall in Hall. apply list_elem_of_In, Hall in Hin.
  destruct Hin as [Hin | [e Hin]]; congruence.
Qed.


Lemma pipe_close_no_other_calls os self a b c ev :
  is_pipe_event ev = false -> ~ In ev (pipe_close_trace os self a b c).
Proof.
  intros Hc Hin. pose proof (pipe_close_trace_events os self a b c) as Hall.
  rewrite Forall_forall in Hall. apply list_elem_of_In, Hall in Hin.
  congruence.
Qed.

End LauncherFacts.

Arguments pipe_close_trace : simpl never.

(** *** Proof steps shared by the launcher theorems *)

(** Unfold [do_execute_child] up to the grantor block; the command line and
    the startup parameters stay abstract. *)
Ltac exec_prelude :=
  unfold PopenAsUser.do_execute_child, PopenAsUser.get_token_information,
    PopenAsUser.create_process_as_user, PopenAsUser.get_last_error,
    PopenAsUser.wait_for_single_object, PopenAsUser.get_exit_code_process,
    PopenAsUser.Detach, PopenAsUser.CLOSEHANDLE;
  run;
  match goal with
  | |- context [if ?b then _ else _] =>
      match b with
      | context [PopenAsUser.truthy] => fail 1
      | _ => is_var b; destruct b
      end
  end;
  run.

Ltac exec_child :=
  exec_prelude;
  match goal with
  | |- context [mkCreate _ _ ?c _ _ _ _ ?si] =>
      generalize si; generalize c; intros ? ?
  end.

(** The grantor block: no token, identity extraction failed, or the
    grantor ran (its outcome stays abstract; [facts] records what is known
    of its trace). *)
Ltac exec_grant_with facts :=
  match goal with
  | |- context [PopenAsUser.truthy ?t] =>
      let Htok := fresh "Htok" in destruct (PopenAsUser.truthy t) eqn:Htok; run
  end;
  try match goal with
    | |- context [os_GetTokenInformation ?o ?t] =>
        let Hid := fresh "Hid" in
        destruct (os_GetTokenInformation o t) eqn:Hid; run
    end;
  try match goal with
    | |- context [Grantor.setup_sacl ?s ?o ?w] =>
        let Hg := fresh "Hg" in
        let tg := fresh "tg" in
        let eg := fresh "eg" in
        facts s o w;
        destruct (Grantor.setup_sacl s o w) as [tg ? [eg|[]]] eqn:Hg; run
    end.

Ltac grant_no_other_calls s o w :=
  let Hno := fresh "Hno" in
  pose proof (fun c => setup_sacl_no_other_calls s o w c) as Hno.

Ltac grant_head s o w :=
  let Hhead := fresh "Hhead" in
  pose proof (proj1 (setup_sacl_trace s o w)) as [? Hhead].


Ltac exec_grant := exec_grant_with grant_no_other_calls.


Ltac exec_rest :=
  rewrite ?close_pipe_handles_run; run;
  repeat (split_answer; rewrite ?close_pipe_handles_run; run).

Ltac find_or :=
  lazymatch goal with
  | |- _ = _ => reflexivity
  | |- _ \/ _ => first [left; find_or | right; find_or]
  | |- In _ _ => assumption
  end.

Ltac find_in := repeat progress (rewrite ?in_app_iff; cbn); find_or.

Ltac elim_in H :=
  repeat progress (rewrite ?in_app_iff in H; cbn in H);
  repeat match type of H with
    | _ \/ _ => destruct H as [H | H]
    end;
  first [ discriminate H
        | contradiction
        | by eapply pipe_close_no_other_calls in H
        | match goal with
          | Hno : forall c, _ -> ~ In (Call c) _ |- _ => by eapply Hno in H
          end
        | injection H as H; subst
        | idtac ].

Ltac finish :=
  repeat match goal with
    | |- _ /\ _ => split
    | |- ~ _ => intro
    | |- forall _, _ => intro
    | H : inl _ = inr _ |- _ => discriminate H
    | H : inr _ = inl _ |- _ => discriminate H
    | H : false = true |- _ => discriminate H
    | H : true = false |- _ => discriminate H
    | H : ?x <> ?x |- _ => contradiction
    | |- _ <-> _ => split
    | H : (_ =? _)%Z = true |- _ => apply Z.eqb_eq in H; subst
    | H : (?x =? ?x)%Z = false |- _ => rewrite Z.eqb_refl in H; discriminate H
    | H : negb _ = true |- _ => apply negb_true_iff in H
    | H : negb _ = false |- _ => apply negb_false_iff in H
    | H : inr _ = inr _ |- _ => injection H as H; subst
    | |- exists _, _ => eexists
    | |- In _ _ => find_in
    | |- _ \/ _ => find_in
    | |- _ = _ => reflexivity
    | H : In _ _ |- _ => elim_in H
    | H : _ \/ _ |- _ => elim_in H
    end.

Ltac forall_events lem :=
  repeat lazymatch goal with
    | |- Forall _ [] => apply Forall_nil; exact I
    | |- Forall _ (pipe_close_trace _ _ _ _ _) => apply lem
    | |- Forall _ (_ :: _) => apply Forall_cons; split; [by split |]
    | |- Forall _ (_ ++ _) => apply Forall_app; split
    end.

(** *** Concrete machines used by the examples *)

Definition world0 : world := mkWorld (fun _ => None) ∅.

(** An operating system on which everything succeeds, except for the
    answers given as arguments. *)
Definition os_example (token_info : exn + SID)
    (create : exn + (Z * Z * Z * Z)) (last_error : Z)
    (wait exit_code : exn + Z) : oracle :=
  mkOracle None None (fun _ => None) (fun _ _ _ => None) (fun _ _ => None)
    (fun _ => token_info) create last_error wait exit_code
    (fun _ => None) (fun _ => None) (fun _ => true)
    (fun v => inr v) (fun _ => None) (fun _ => inr ∅)
    (inr "C:\hub") (inr "C:\Temp\tmp1") (fun _ => None) ∅
    (fun _ => inr 7%N) (fun _ => 8%N) 3%Z
    (3, 10)%nat (fun _ => None) (fun _ => None) None.

Definition created_ok : exn + (Z * Z * Z * Z) := inr (100, 200, 4242, 1)%Z.

Section LauncherTheorems.
Import Grantor Cmdline PopenAsUser.

Definition window_station_access : Z := READ_CONTROL .| WRITE_DAC.

(** C4. Whatever the arguments and the operating system do, the
    create-process call is attempted with the launcher's token.  With a
    token, the launch starts by extracting the token's identity, invokes
    the grantor when that succeeded, and a failure of either is logged as
    a warning.  Without a token no identity is extracted, no grantor call
    is made and the world (the DACLs) is left as it was. *)
Theorem C4_grant_exactly_when_token
    self args executable close_fds cwd env startupinfo creationflags shell
    p2cread p2cwrite c2pread c2pwrite errread errwrite os w :
  let o := do_execute_child self args executable close_fds [] cwd env
             startupinfo creationflags shell
             p2cread p2cwrite c2pread c2pwrite errread errwrite os w in
  let tok := default 0%Z (_token self) in
  let grant := (sid <- get_token_information tok ;; setup_sacl sid) os w in
  (exists a, In (Call (CreateProcessAsUser a)) (trace o)
             /\ cp_token a = _token self)
  /\ if truthy (_token self) then
       (exists t, trace o = Call (GetTokenInformation tok) :: t)
       /\ (forall sid, os_GetTokenInformation os tok = inr sid ->
             In (Call (OpenWindowStation "winsta0" window_station_access))
               (trace o))
       /\ (forall e, result grant = inl e ->
             In (Log WARNING (Msg_failed_to_setup_sacl e)) (trace o))
     else
       Forall (fun ev => is_identity_call ev = false
                         /\ is_grantor_call ev = false) (trace o)
       /\ final o = w.
Proof.
  exec_child.
  all: exec_grant_with grant_head.
  all: exec_rest.
  all: cbn in *; subst.
  all: split; [eexists; split; [find_in | reflexivity] |].
  all: try (split; [by eexists
                   | split; [intros ? ?; try discriminate; find_in
                            | intros ? [= <-]; find_in]]).
  all: try (split; [| reflexivity]).
  all: forall_events pipe_close_not_grant.
Qed.






Definition popen0 : popen_obj := mkPopen None None false None None.


(** *** Startup parameters *)

(** [STARTF_USESTDHANDLES] is bit 8 of [dwFlags]. *)
Definition uses_std_handles (si : STARTUPINFO) : bool :=
  Z.testbit (dwFlags si) 8.

(** What line 302-306 of [win_utils.py] make of the startup parameters
    [si0] they are given. *)
Definition wired (p2cread c2pwrite errwrite : Z) (si0 si : STARTUPINFO)
  : Prop :=
  if negb ((p2cread =? -1) || (c2pwrite =? -1) || (errwrite =? -1))%Z then
    uses_std_handles si = true /\ hStdInput si = p2cread
    /\ hStdOutput si = c2pwrite /\ hStdError si = errwrite
  else
    uses_std_handles si = uses_std_handles si0
    /\ hStdInput si = hStdInput si0 /\ hStdOutput si = hStdOutput si0
    /\ hStdError si = hStdError si0.

Lemma wired_startupinfo p2cread c2pwrite errwrite startupinfo (shell : bool) :
  let si0 := default STARTUPINFO_new startupinfo in
  let si1 :=
    if negb ((p2cread =? -1) || (c2pwrite =? -1) || (errwrite =? -1))%Z then
      mkSI (dwFlags si0 .| STARTF_USESTDHANDLES)
           p2cread c2pwrite errwrite (wShowWindow si0)
    else si0 in
  let si2 :=
    if shell then
      mkSI (dwFlags si1 .| STARTF_USESHOWWINDOW)
           (hStdInput si1) (hStdOutput si1) (hStdError si1) SW_HIDE
    else si1 in
  wired p2cread c2pwrite errwrite si0 si2.
Proof.
  intros si0 si1 si2. subst si1 si2. unfold wired, uses_std_handles.
  generalize si0. clear. intros si0.
  destruct (negb _), shell;
    unfold dwFlags, hStdInput, hStdOutput, hStdError;
    rewrite ?Z.lor_spec; destruct si0;
    unfold STARTF_USESTDHANDLES, STARTF_USESHOWWINDOW;
    change (Z.testbit 256 8) with true; change (Z.testbit 1 8) with false;
    rewrite ?orb_true_r, ?orb_false_r; done.
Qed.

(** The command line [do_execute_child] passes on: the given string, or
    the list turned into one by [list2cmdline]; with [shell=True], wrapped
    in double quotes after [COMSPEC /c]. *)
Definition command_line (os : oracle) (args : string + list string)
    (shell : bool) : string :=
  let line := match args with inl s => s | inr seq => list2cmdline seq end in
  if shell then
    default "cmd.exe" (os_environ os !! "COMSPEC")
    +:+ " /c " +:+ chr dquote +:+ line +:+ chr dquote
  else line.

(** Exactly one create call is made; its startup parameters are the given
    ones with the three handles wired in when none of them is [-1], and its
    command line is [command_line]. *)
Lemma startup_parameters
    self args executable close_fds cwd env startupinfo creationflags shell
    p2cread p2cwrite c2pread c2pwrite errread errwrite os w :
  let o := do_execute_child self args executable close_fds [] cwd env
             startupinfo creationflags shell
             p2cread p2cwrite c2pread c2pwrite errread errwrite os w in
  exists a, In (Call (CreateProcessAsUser a)) (trace o)
    /\ (forall a', In (Call (CreateProcessAsUser a')) (trace o) -> a' = a)
    /\ wired p2cread c2pwrite errwrite (default STARTUPINFO_new startupinfo)
         (cp_startupinfo a)
    /\ cp_commandLine a = command_line os args shell.
Proof.
  unfold command_line.
  exec_prelude.
  all: match goal with
       | |- context [mkCreate _ _ ?c _ _ _ _ ?si] =>
           assert (Hsi : wired p2cread c2pwrite errwrite
                           (default STARTUPINFO_new startupinfo) si)
             by first
                  [ exact (wired_startupinfo p2cread c2pwrite errwrite
                             startupinfo true)
                  | exact (wired_startupinfo p2cread c2pwrite errwrite
                             startupinfo false) ];
           revert Hsi; generalize si; generalize c; intros ? ? Hsi
       end.
  all: exec_grant.
  all: exec_rest.
  all: cbn in *.
  all: eexists; split; [find_in | split; [| split; [exact Hsi | reflexivity]]].
  all: intros a' Hin; elim_in Hin; reflexivity.
Qed.

End LauncherTheorems.

Arguments PopenAsUser.do_execute_child : simpl never.
Arguments PopenAsUser._execute_child : simpl never.
Arguments PopenAsUser.passed_extras : simpl never.
Arguments PopenAsUser.accepted_extras : simpl never.
Arguments PopenAsUser.c_uint : simpl never.

Section ConstructorTheorems.
Import Cmdline PopenAsUser.



(** Whether the arguments [Popen.__init__] passes fit the parameter list
    of the [_execute_child] the class body defined. *)
Definition dispatch_fits (v : nat * nat) : bool :=
  (passed_extras v =? accepted_extras v)%nat.

(** They fit on every Python version but 3.11 and 3.12. *)
Lemma dispatch_fits_but_on_3_11_and_3_12 v :
  dispatch_fits v = negb (version_ge v 3 11 && negb (version_ge v 3 13)).
Proof.
  destruct v as [major minor].
  unfold dispatch_fits, passed_extras, accepted_extras, version_ge.
  cbn [fst snd].
  destruct (Nat.ltb_spec 3 major), (Nat.eqb_spec major 3),
    (Nat.leb_spec 9 minor), (Nat.leb_spec 11 minor), (Nat.leb_spec 13 minor);
    cbn; try reflexivity; lia.
Qed.

Lemma execute_child_run
    self args executable close_fds pass_fds cwd env startupinfo creationflags
    shell p2cread p2cwrite c2pread c2pwrite errread errwrite os w :
  _execute_child self args executable close_fds pass_fds cwd env
    startupinfo creationflags shell
    p2cread p2cwrite c2pread c2pwrite errread errwrite
    (passed_extras (sys_version_info os)) os w
  = if dispatch_fits (sys_version_info os) then
      do_execute_child self args executable close_fds pass_fds cwd env
        startupinfo creationflags shell
        p2cread p2cwrite c2pread c2pwrite errread errwrite os w
    else
      Out [] w
        (inl (TypeError
                "_execute_child(): wrong number of positional arguments")).
Proof.
  unfold _execute_child, dispatch_fits. run.
  destruct (_ =? _)%nat; [| reflexivity].
  by destruct (do_execute_child _ _ _ _ _ _ _ _ _ _ _ _ _ _ _ _ _ _).
Qed.


End ConstructorTheorems.

(** *** Cleanup *)

Section CleanupTheorems.
Import Grantor Cmdline PopenAsUser.

(** The liveness probes made after a create call that returned: they
    return normally unless [WaitForSingleObject] or [GetExitCodeProcess]
    raises. *)
Definition probes_return (os : oracle) : bool :=
  if negb (os_GetLastError os =? 0)%Z then true
  else match os_WaitForSingleObject os with
       | inl _ => false
       | inr r =>
           if (r =? WAIT_OBJECT_0)%Z then
             match os_GetExitCodeProcess os with
             | inl _ => false
             | inr _ => true
             end
           else true
       end.

(** X7. What [do_execute_child] closes by a call of its own.  Every
    child-side pipe end other than [-1] gets its [Close] on every path.
    The explicit [CLOSEHANDLE] call on the thread handle of a created
    process, whose argument is the handle's integer cut to 32 bits, is made
    exactly when the liveness probes returned normally: the [finally] that
    makes it belongs to a [try] that is only reached then.  No other
    [CLOSEHANDLE] call is made. *)
Lemma launcher_cleanup
    self args executable close_fds cwd env startupinfo creationflags shell
    p2cread p2cwrite c2pread c2pwrite errread errwrite os w :
  let o := do_execute_child self args executable close_fds [] cwd env
             startupinfo creationflags shell
             p2cread p2cwrite c2pread c2pwrite errread errwrite os w in
  (forall h name,
      In (h, name) [(p2cread, "p2cread"); (c2pwrite, "c2pwrite");
                    (errwrite, "errwrite")] ->
      h <> (-1)%Z -> In (Call (Handle_Close name h)) (trace o))
  /\ (forall hp ht pid_ tid,
         os_CreateProcessAsUser os = inr (hp, ht, pid_, tid) ->
         ht <> 0%Z ->
         (In (Call (CloseHandle (c_uint ht))) (trace o)
          <-> probes_return os = true)
         /\ (forall h, In (Call (CloseHandle h)) (trace o) -> h = c_uint ht)).
Proof.
  exec_child.
  all: exec_grant.
  all: exec_rest.
  all: cbn in *.
  all: split;
    [ intros h name Hin Hh;
      pose proof (pipe_close_attempts os self _ _ _ _ _ Hin Hh);
      find_in | ].
  all: intros hp' ht' pid' tid' [= -> -> -> ->] Hht.
  all: unfold probes_return.
  all: repeat match goal with
         | H : ?x = _ |- context [?x] => rewrite H
         end; cbn.
  all: finish.
Qed.

Definition os_still_running : oracle :=
  os_example (inr "S-1-5-21-1004") created_ok 0 (inr WAIT_TIMEOUT)
    (inr STILL_ACTIVE).

Definition launch_with_pipes (os : oracle) : outcome popen_obj :=
  do_execute_child popen0 (inr ["app"; "--port=8888"]) None false [] None
    None None 0 false 11 (-1) (-1) 12 (-1) 13 os world0.

(** On the ordinary path the thread handle 200 is closed last. *)
Example thread_handle_closed_on_return :
  trace (launch_with_pipes os_still_running) =
    [Call (CreateProcessAsUser
             (mkCreate None None "app --port=8888" 1 0 None None
                       (mkSI 256 11 12 13 0)));
     Call GetLastError;
     Call (WaitForSingleObject 100 1000);
     Call (Handle_Close "p2cread" 11);
     Call (Handle_Close "c2pwrite" 12);
     Call (Handle_Close "errwrite" 13);
     Call (PyHANDLE_Detach 100);
     Call (CloseHandle 200)]
  /\ result (launch_with_pipes os_still_running)
     = inr (mkPopen None None true (Some 100%Z) (Some 4242%Z)).
Proof. split; vm_compute; reflexivity. Qed.

End CleanupTheorems.

(** ** The spawner: [get_env], [start] *)

Arguments WinLocalProcessSpawner._determine_working_directory : simpl never.
Arguments WinLocalProcessSpawner.get_env : simpl never.
Arguments Cmdline.join : simpl never.
Arguments Cmdline.quote : simpl never.
Arguments try_finally : simpl never.

Section SpawnerFacts.
Import Cmdline PopenAsUser WinLocalProcessSpawner.

Lemma get_env_run self os w :
  exists base, get_env self os w = Out [] w (inr base).
Proof. unfold get_env. run. by eexists. Qed.

(** What the loop of [get_env] leaves under key [k]. *)
Lemma keep_fold (environ : env_block) (l : list string) (env : env_block) k :
  fold_left (fun (env : env_block) key =>
               match environ !! key with
               | Some v => <[key := v]> env
               | None => env
               end) l env !! k
  = if bool_decide (k ∈ l) then
      match environ !! k with Some v => Some v | None => env !! k end
    else env !! k.
Proof.
  revert env. induction l as [|key l IH]; intros env; cbn.
  - done.
  - rewrite IH. clear IH.
    destruct (decide (k = key)) as [->|Hne].
    + rewrite (bool_decide_eq_true_2 (key ∈ key :: l)) by left.
      destruct (environ !! key) eqn:Hk; destruct (bool_decide (key ∈ l));
        by rewrite ?lookup_insert_eq.
    + assert (Hiff : k ∈ key :: l <-> k ∈ l)
        by (rewrite elem_of_cons; tauto).
      rewrite (bool_decide_ext _ _ Hiff).
      destruct (environ !! key); rewrite ?lookup_insert_ne by done; done.
Qed.

(** [get_env] copies every OS-critical variable the launcher has. *)
Lemma get_env_keeps self os w base k v :
  result (get_env self os w) = inr base ->
  In k win_env_keep -> os_environ os !! k = Some v ->
  base !! k = Some v.
Proof.
  intros Hbase Hin Hk.
  assert (Hrun : result (get_env self os w)
                 = inr (fold_left
                          (fun (env : env_block) key =>
                             match os_environ os !! key with
                             | Some v => <[key := v]> env
                             | None => env
                             end) win_env_keep (base_env self)))
    by reflexivity.
  assert (Hfold : base = fold_left
                    (fun (env : env_block) key =>
                       match os_environ os !! key with
                       | Some v => <[key := v]> env
                       | None => env
                       end) win_env_keep (base_env self))
    by congruence.
  clear Hrun Hbase.
  rewrite Hfold, keep_fold, Hk.
  rewrite bool_decide_eq_true_2; [done | by apply list_elem_of_In].
Qed.

(** Events of [_determine_working_directory]. *)
Definition is_cwd_event (ev : event) : bool :=
  match ev with
  | Call os_getcwd | Call mkdtemp
  | Log WARNING (Msg_notebook_dir_missing _)
  | Log WARNING (Msg_getcwd_failed _)
  | Log WARNING (Msg_using_temp_dir _) => true
  | _ => false
  end.

Lemma cwd_trace self ue os w :
  Forall (fun ev => is_cwd_event ev = true)
    (trace (_determine_working_directory self ue os w)).
Proof.
  unfold _determine_working_directory, isdir, getcwd, mkdtemp_. run.
  repeat split_answer; repeat constructor.
Qed.

Lemma popen_call_skip t1 t2 :
  Forall (fun ev => is_cwd_event ev = true) t1 ->
  popen_call (t1 ++ t2) = popen_call t2.
Proof.
  induction 1 as [|ev t1 Hev _ IH]; [done |].
  cbn. rewrite IH. by destruct ev as [[]|[] []].
Qed.

Lemma profile_call_skip t1 t2 :
  Forall (fun ev => is_cwd_event ev = true) t1 ->
  profile_call (t1 ++ t2) = profile_call t2.
Proof.
  induction 1 as [|ev t1 Hev _ IH]; [done |].
  cbn. rewrite IH. by destruct ev as [[]|[] []].
Qed.

Lemma popen_call_none t :
  Forall (fun ev => is_cwd_event ev = true) t -> popen_call t = None.
Proof. intros H. rewrite <- (app_nil_r t). by rewrite popen_call_skip. Qed.

End SpawnerFacts.

(** Unfold [start] down to the constructor call: the token and profile
    blocks are split into their cases, the working directory and the launch
    block keep an abstract outcome (of the latter only the first event is
    recorded). *)
Ltac start_prefix P :=
  unfold WinLocalProcessSpawner.start, WinLocalProcessSpawner.HANDLE,
    WinLocalProcessSpawner.create_environment_block,
    WinLocalProcessSpawner.which_or, PopenAsUser.Detach;
  run_keep;
  match goal with
  | |- context [WinLocalProcessSpawner.get_env ?s ?o ?w] =>
      let base := fresh "base" in
      let Hbase := fresh "Hbase" in
      destruct (get_env_run s o w) as [base Hbase]; rewrite !Hbase
  end;
  run_keep;
  repeat first
    [ match goal with
      | |- context [WinLocalProcessSpawner._determine_working_directory
                      ?s ?ue ?o ?w] =>
          let Hc := fresh "Hcwd" in
          pose proof (cwd_trace s ue o w) as Hc;
          destruct (WinLocalProcessSpawner._determine_working_directory
                      s ue o w) as [? ? [?|?]];
          cbn in Hc; run_keep
      | |- context [try_finally ?m ?c ?o ?w] =>
          match m with
          | context [PopenAsUser_call ?cm ?k] =>
              let Hhead := fresh "Hhead" in
              assert (Hhead : exists rest,
                         trace (try_finally m c o w)
                         = Call (PopenAsUser_call cm k) :: rest)
                by (unfold try_finally;
                    destruct (P cm k o w) as [? ? [[]|?]]; run;
                    repeat split_answer; by eexists);
              destruct Hhead as [? Hhead];
              destruct (try_finally m c o w) as [? ? [?|?]];
              cbn in Hhead; subst; run_keep
          end
      end
    | progress (rewrite <- ?app_assoc;
                rewrite ?popen_call_skip, ?profile_call_skip by assumption;
                rewrite ?popen_call_none by assumption);
      run_keep
    | split_answer_with run_keep ].

Section EnvironmentTheorems.
Import Cmdline PopenAsUser WinLocalProcessSpawner.

(** The command of the constructor call: [cmd] followed by the arguments;
    with a [shell_cmd], that list quoted by [shlex.quote], joined by spaces
    and appended to [shell_cmd] as its last element. *)
Definition spawn_command (self : spawner) : list string :=
  if nonempty (shell_cmd self) then
    shell_cmd self
    ++ [join " " (map quote (WinLocalProcessSpawner.cmd self ++ args self))]
  else WinLocalProcessSpawner.cmd self ++ args self.

(** The constructor call.  Its command is [spawn_command]; its keywords are
    the user's [popen_kwargs] laid over [token] and [cwd], and then [env]
    set to the environment [start] computed -- what [get_env] returned,
    updated with the profile block when one was loaded. *)
Lemma start_popen_kwargs
    (P : list string -> kwargs -> M popen_obj) self os w cmd kw :
  let o := start P self os w in
  popen_call (trace o) = Some (cmd, kw) ->
  exists base (kw0 : kwargs),
    result (get_env self os w) = inr base
    /\ kw = <["env" := KEnv (match loaded_profile os (trace o) with
                             | Some ue => ue ∪ base
                             | None => base
                             end)]> (popen_kwargs self ∪ kw0)
    /\ cmd = spawn_command self.
Proof.
  unfold spawn_command.
  start_prefix P.
  all: try discriminate.
  all: intros [= <- <-].
  all: do 2 eexists; split; [reflexivity | split; [| reflexivity]].
  all: unfold loaded_profile; cbn;
    rewrite ?profile_call_skip by assumption; cbn.
  all: repeat match goal with H : ?x = _ |- context [?x] => rewrite H end.
  all: reflexivity.
Qed.

(** C6. For every base environment, every configuration and every
    behaviour of the constructor: an OS-critical variable that the
    launcher's own process environment holds is in the environment passed
    to the constructor, with the launcher's value -- unless a profile block
    was loaded and holds that key, in which case the block's value is
    passed. *)
Theorem C6_critical_variables_reach_child
    (P : list string -> kwargs -> M popen_obj) self os w cmd kw k v :
  In k win_env_keep ->
  os_environ os !! k = Some v ->
  let o := start P self os w in
  popen_call (trace o) = Some (cmd, kw) ->
  exists env,
    kw !! "env" = Some (KEnv env)
    /\ match loaded_profile os (trace o) with
       | Some ue => env !! k = Some (default v (ue !! k))
       | None => env !! k = Some v
       end.
Proof.
  intros Hin Hk o Hcall.
  destruct (start_popen_kwargs P self os w cmd kw Hcall)
    as (base & kw0 & Hbase & -> & _).
  eexists; split; [apply lookup_insert_eq |].
  pose proof (get_env_keeps self os w base k v Hbase Hin Hk) as Hb.
  fold o. destruct (loaded_profile os (trace o)) as [ue|]; [| exact Hb].
  rewrite lookup_union. rewrite Hb. by destruct (ue !! k).
Qed.

(** C10. Whatever [popen_kwargs] holds -- an [env] entry included -- the
    [env] keyword of the constructor call is the environment the spawner
    computed: the result of [get_env], updated with the profile block when
    one was loaded.  Every other entry of [popen_kwargs] is passed on as
    the user configured it. *)
Theorem C10_env_entry_is_overwritten
    (P : list string -> kwargs -> M popen_obj) self os w cmd kw :
  let o := start P self os w in
  popen_call (trace o) = Some (cmd, kw) ->
  exists base,
    result (get_env self os w) = inr base
    /\ kw !! "env" =
       Some (KEnv (match loaded_profile os (trace o) with
                   | Some ue => ue ∪ base
                   | None => base
                   end))
    /\ forall key x, key <> "env" ->
         popen_kwargs self !! key = Some x -> kw !! key = Some x.
Proof.
  intros o Hcall.
  destruct (start_popen_kwargs P self os w cmd kw Hcall)
    as (base & kw0 & Hbase & -> & _).
  exists base. split; [exact Hbase | split].
  - apply lookup_insert_eq.
  - intros key x Hkey Hx.
    rewrite lookup_insert_ne by done.
    by apply lookup_union_Some_l.
Qed.

End EnvironmentTheorems.

(** ** The working directory *)

Section WorkingDirectory.
Import Cmdline PopenAsUser WinLocalProcessSpawner.

(** The configured directory, when one is configured and exists. *)
Definition configured_dir (self : spawner) (w : world) : option string :=
  match notebook_dir self with
  | Some d =>
      if negb (is_empty d) && bool_decide (d ∈ w_dirs w) then Some d else None
  | None => None
  end.

(** The profile directory, when the user environment names one that
    exists. *)
Definition profile_dir (user_env : option env_block) (w : world)
  : option string :=
  match user_env ≫= (.!! "USERPROFILE") with
  | Some d =>
      if negb (is_empty d) && bool_decide (d ∈ w_dirs w) then Some d else None
  | None => None
  end.

(** C7. The working directory is the first match of the chain: the
    configured directory when it exists on disk; else the profile directory
    ([USERPROFILE] of the user environment) when it exists; else the
    current directory when [os.getcwd] returns; else the directory
    [mkdtemp] created, which is on disk afterwards.  The call raises only
    when both [getcwd] and [mkdtemp] fail. *)
Theorem C7_working_directory_priority self user_env os w :
  let o := _determine_working_directory self user_env os w in
  match configured_dir self w, profile_dir user_env w with
  | Some d, _ => result o = inr d
  | None, Some p => result o = inr p
  | None, None =>
      match os_getcwd_result os with
      | inr cwd => result o = inr cwd
      | inl _ =>
          match os_mkdtemp_result os with
          | inr tmp =>
              if bool_decide (tmp ∈ w_dirs w) then
                exists e, result o = inl e
              else result o = inr tmp /\ tmp ∈ w_dirs (final o)
          | inl e => result o = inl e
          end
      end
  end.
Proof.
  unfold _determine_working_directory, isdir, getcwd, mkdtemp_,
    configured_dir, profile_dir, str_truthy.
  run.
  repeat split_answer; try reflexivity; try discriminate.
  all: first [by eexists | split; [reflexivity | set_solver]].
Qed.

End WorkingDirectory.

(** ** Errors of the constructor *)

Section ConstructorErrors.
Import Cmdline PopenAsUser WinLocalProcessSpawner.

(** What [shutil.which(name) or name] evaluates to. *)
Definition resolved_path (os : oracle) (name : string) : string :=
  if str_truthy (os_which os name) then default name (os_which os name)
  else name.

(** [needle in hay]. *)
Fixpoint occurs_in (needle hay : string) : bool :=
  String.prefix needle hay
  || match hay with
     | EmptyString => false
     | String _ rest => occurs_in needle rest
     end.

End ConstructorErrors.

(** ** Command lines *)

Section CommandLineFacts.
Import Cmdline.

(** [''.join(pieces)]. *)
Definition cat (pieces : list string) : string := join EmptyString pieces.

(** What [list2cmdline] makes of one argument. *)
Definition rendered (arg : string) : string := cat (l2c_arg [] arg).

Lemma append_cons c (s t : string) : String c s +:+ t = String c (s +:+ t).
Proof. reflexivity. Qed.

Lemma append_empty_l (s : string) : EmptyString +:+ s = s.
Proof. reflexivity. Qed.

Lemma append_empty_r (s : string) : s +:+ EmptyString = s.
Proof.
  induction s as [|c s IH]; [done |]. by rewrite append_cons, IH.
Qed.

Lemma append_assoc_r (a b c : string) : (a +:+ b) +:+ c = a +:+ (b +:+ c).
Proof.
  induction a as [|x a IH]; [done |]. by rewrite !append_cons, IH.
Qed.

Lemma cat_cons h t : cat (h :: t) = h +:+ cat t.
Proof.
  unfold cat, join. destruct t as [|h' t]; cbn.
  - by rewrite append_empty_r.
  - done.
Qed.

Lemma cat_app a b : cat (a ++ b) = cat a +:+ cat b.
Proof.
  induction a as [|h a IH]; [done |].
  rewrite <- app_comm_cons, !cat_cons, IH. by rewrite append_assoc_r.
Qed.

Lemma join_cons sep h t :
  join sep (h :: t) = h +:+ cat (map (fun x => sep +:+ x) t).
Proof.
  unfold join. revert h. induction t as [|h' t IH]; intros h; cbn.
  - by rewrite append_empty_r.
  - specialize (IH h'). cbn in IH. rewrite cat_cons.
    rewrite IH. by rewrite append_assoc_r.
Qed.

Lemma nonempty_app_r {A} (l : list A) x : nonempty (l ++ [x]) = true.
Proof. by destruct l. Qed.

Lemma nonempty_app_l {A} (l l' : list A) :
  nonempty l = true -> nonempty (l ++ l') = true.
Proof. by destruct l. Qed.

Lemma l2c_chars_app arg : forall r0 r bs,
  l2c_chars arg (r0 ++ r, bs)
  = (r0 ++ fst (l2c_chars arg (r, bs)), snd (l2c_chars arg (r, bs))).
Proof.
  induction arg as [|c arg IH]; intros r0 r bs; cbn [l2c_chars].
  - done.
  - unfold l2c_char.
    destruct (Ascii.eqb c backslash); [apply IH |].
    destruct (Ascii.eqb c dquote).
    + rewrite <- IH. by rewrite !app_assoc.
    + destruct (nonempty bs); rewrite <- IH; by rewrite !app_assoc.
Qed.

Lemma l2c_arg_app result arg :
  nonempty result = true ->
  l2c_arg result arg = result ++ [chr space] ++ l2c_arg [] arg.
Proof.
  intros Hne. unfold l2c_arg. rewrite Hne. cbn [nonempty app].
  destruct (needquote arg).
  - rewrite (l2c_chars_app arg (result ++ [chr space]) [chr dquote] []).
    destruct (l2c_chars arg ([chr dquote], [])) as [r' bs']. cbn [fst snd].
    destruct (nonempty bs'); by rewrite <- ?app_assoc.
  - rewrite <- (app_nil_r (result ++ [chr space])).
    rewrite (l2c_chars_app arg (result ++ [chr space]) [] []).
    destruct (l2c_chars arg ([], [])) as [r' bs']. cbn [fst snd].
    destruct (nonempty bs'); by rewrite <- ?app_assoc.
Qed.

Lemma l2c_chars_grows arg : forall r bs,
  nonempty (r ++ bs) = true ->
  nonempty (fst (l2c_chars arg (r, bs)) ++ snd (l2c_chars arg (r, bs))) = true.
Proof.
  induction arg as [|c arg IH]; intros r bs Hne; cbn [l2c_chars]; [done |].
  unfold l2c_char.
  destruct (Ascii.eqb c backslash).
  { apply IH. rewrite app_assoc. apply nonempty_app_r. }
  destruct (Ascii.eqb c dquote).
  { apply IH. rewrite app_nil_r, app_assoc. apply nonempty_app_r. }
  apply IH. rewrite app_nil_r. apply nonempty_app_r.
Qed.

Lemma l2c_arg_nonempty arg : nonempty (l2c_arg [] arg) = true.
Proof.
  unfold l2c_arg. cbn [nonempty].
  destruct (needquote arg) eqn:Hq.
  - cbn [app]. destruct (l2c_chars arg ([chr dquote], [])) as [r' bs'].
    rewrite app_assoc. apply nonempty_app_r.
  - destruct arg as [|c arg]; [discriminate |].
    cbn [l2c_chars].
    assert (Hfirst : nonempty (fst (l2c_char ([], []) c)
                               ++ snd (l2c_char ([], []) c)) = true).
    { unfold l2c_char. by repeat case_match. }
    destruct (l2c_char ([], []) c) as [r1 bs1]. cbn [fst snd] in Hfirst.
    pose proof (l2c_chars_grows arg r1 bs1 Hfirst) as Hg.
    destruct (l2c_chars arg (r1, bs1)) as [r' bs']. cbn [fst snd] in Hg.
    destruct bs'; [by rewrite app_nil_r in Hg | done].
Qed.

Lemma fold_l2c seq : forall acc,
  nonempty acc = true ->
  cat (fold_left l2c_arg seq acc)
  = cat acc +:+ cat (map (fun a => chr space +:+ rendered a) seq).
Proof.
  induction seq as [|a seq IH]; intros acc Hne; cbn [fold_left map].
  - by rewrite append_empty_r.
  - rewrite IH.
    + rewrite l2c_arg_app by done.
      rewrite !cat_app, !cat_cons. unfold rendered.
      change (cat []) with EmptyString.
      by rewrite append_empty_r, !append_assoc_r.
    + rewrite l2c_arg_app by done. by apply nonempty_app_l.
Qed.

(** [list2cmdline] renders every argument on its own and joins the
    renderings with single spaces. *)
Lemma list2cmdline_join seq :
  list2cmdline seq = join (chr space) (map rendered seq).
Proof.
  unfold list2cmdline. destruct seq as [|a seq]; [done |].
  cbn [fold_left map]. fold (cat (fold_left l2c_arg seq (l2c_arg [] a))).
  rewrite fold_l2c by apply l2c_arg_nonempty.
  by rewrite join_cons, map_map.
Qed.


(** *** Which arguments get surrounding quotes *)

Fixpoint last_char (s : string) : option ascii :=
  match s with
  | EmptyString => None
  | String c EmptyString => Some c
  | String _ rest => last_char rest
  end.

Definition first_char (s : string) : option ascii :=
  match s with
  | EmptyString => None
  | String c _ => Some c
  end.

(** [s] is at least two characters long and starts and ends with [q]. *)
Definition wrapped_in (q : ascii) (s : string) : bool :=
  match s with
  | String c (String d rest) =>
      Ascii.eqb c q
      && match last_char (String d rest) with
         | Some e => Ascii.eqb e q
         | None => false
         end
  | _ => false
  end.

Lemma last_char_app_chr s c : last_char (s +:+ chr c) = Some c.
Proof.
  induction s as [|d s IH]; [done |].
  rewrite append_cons. cbn [last_char]. rewrite IH.
  destruct (s +:+ chr c) eqn:Hs; [| done].
  destruct s; discriminate.
Qed.

Lemma wrapped_in_intro q s :
  wrapped_in q (chr q +:+ s +:+ chr q) = true.
Proof.
  unfold chr at 1. rewrite append_cons, append_empty_l.
  unfold wrapped_in.
  destruct (s +:+ chr q) eqn:Hs; [destruct s; discriminate |].
  rewrite <- Hs, last_char_app_chr, Ascii.eqb_refl. done.
Qed.

Lemma wrapped_in_first q s :
  first_char s <> Some q -> wrapped_in q s = false.
Proof.
  destruct s as [|c [|d s]]; cbn; try done.
  intros Hc. destruct (Ascii.eqb_spec c q); [congruence | done].
Qed.

Lemma first_char_app s t :
  s <> EmptyString -> first_char (s +:+ t) = first_char s.
Proof. destruct s; [done |]. by rewrite append_cons. Qed.


(** The text produced so far by the inner loop of [list2cmdline]. *)
Definition out (st : list string * list string) : string :=
  cat (fst st) +:+ cat (snd st).

Definition all_backslashes (bs : list string) : Prop :=
  Forall (fun p => p = chr backslash) bs.

Lemma str_repeat_add s a b :
  str_repeat s (a + b) = str_repeat s a +:+ str_repeat s b.
Proof.
  induction a as [|a IH]; [done |].
  cbn [Nat.add str_repeat]. by rewrite IH, append_assoc_r.
Qed.

Lemma cat_backslashes bs :
  all_backslashes bs -> cat bs = str_repeat (chr backslash) (length bs).
Proof.
  induction 1 as [|p bs -> _ IH]; [done |].
  rewrite cat_cons, IH. done.
Qed.

Lemma cat_if_nonempty (r bs : list string) :
  cat (if nonempty bs then r ++ bs else r) = cat r +:+ cat bs.
Proof.
  destruct bs; cbn [nonempty].
  - change (cat []) with EmptyString. by rewrite append_empty_r.
  - apply cat_app.
Qed.

Lemma append_nonempty (s t : string) :
  s <> EmptyString -> s +:+ t <> EmptyString.
Proof. by destruct s. Qed.

(** One step of the inner loop only appends to the text. *)
Lemma l2c_char_out st c :
  all_backslashes (snd st) ->
  exists more, out (l2c_char st c) = out st +:+ more
               /\ all_backslashes (snd (l2c_char st c)).
Proof.
  destruct st as [r bs]. intros Hbs. cbn [snd] in Hbs.
  unfold l2c_char, out.
  destruct (Ascii.eqb_spec c backslash) as [-> | _].
  - exists (chr backslash). cbn [fst snd]. split.
    + by rewrite cat_app, cat_cons, <- append_assoc_r.
    + apply Forall_app. split; [done | by constructor].
  - destruct (Ascii.eqb c dquote); cbn [fst snd].
    + exists (str_repeat (chr backslash) (length bs)
              +:+ (chr backslash +:+ chr dquote)).
      split; [| constructor].
      rewrite !cat_app, !cat_cons. change (cat []) with EmptyString.
      rewrite (cat_backslashes bs Hbs).
      replace (length bs * 2) with (length bs + length bs) by lia.
      by rewrite str_repeat_add, !append_empty_r, !append_assoc_r.
    + exists (chr c). split; [| constructor].
      rewrite cat_app, cat_if_nonempty, cat_cons.
      change (cat []) with EmptyString.
      by rewrite !append_empty_r.
Qed.

Lemma l2c_chars_first arg : forall st,
  all_backslashes (snd st) -> out st <> EmptyString ->
  first_char (out (l2c_chars arg st)) = first_char (out st).
Proof.
  induction arg as [|c arg IH]; intros st Hbs Hne; cbn [l2c_chars]; [done |].
  destruct (l2c_char_out st c Hbs) as (more & Hout & Hbs').
  rewrite IH; [| done | rewrite Hout; by apply append_nonempty].
  rewrite Hout. by apply first_char_app.
Qed.

Lemma l2c_char_first c :
  all_backslashes (snd (l2c_char ([], []) c))
  /\ out (l2c_char ([], []) c) <> EmptyString
  /\ first_char (out (l2c_char ([], []) c)) <> Some dquote.
Proof.
  unfold l2c_char, out, all_backslashes.
  destruct (Ascii.eqb_spec c backslash) as [-> | _].
  - split; [by repeat constructor | by split].
  - destruct (Ascii.eqb_spec c dquote) as [-> | Hc].
    + split; [by constructor | by split].
    + split; [by constructor | split; [done |]].
      cbv [fst snd cat join String.concat app chr String.append first_char
             nonempty].
      congruence.
Qed.

(** An argument gets surrounding double quotes exactly when it is empty
    or holds a space or a tab. *)
Lemma rendered_wrapped arg :
  wrapped_in dquote (rendered arg) = needquote arg.
Proof.
  unfold rendered, l2c_arg. cbn [nonempty app].
  destruct (needquote arg) eqn:Hq.
  - rewrite <- (app_nil_r [chr dquote]) at 1.
    rewrite (l2c_chars_app arg [chr dquote] [] []).
    destruct (l2c_chars arg ([], [])) as [r' bs']. cbn [fst snd].
    rewrite cat_app, cat_if_nonempty, !cat_app, !cat_cons.
    change (cat []) with EmptyString.
    rewrite !append_empty_r, !append_assoc_r.
    rewrite <- (append_assoc_r (cat r')), <- (append_assoc_r (cat r' +:+ cat bs')).
    apply wrapped_in_intro.
  - apply wrapped_in_first.
    destruct arg as [|c arg]; [discriminate |].
    cbn [l2c_chars].
    destruct (l2c_char_first c) as (Hbs & Hne & Hfirst).
    pose proof (l2c_chars_first arg _ Hbs Hne) as Hsame.
    destruct (l2c_chars arg (l2c_char ([], []) c)) as [r' bs'].
    rewrite cat_if_nonempty. unfold out in Hsame. cbn [fst snd] in Hsame.
    by rewrite Hsame.
Qed.

End CommandLineFacts.


Section CommandLineTheorems.
Import Cmdline PopenAsUser WinLocalProcessSpawner.

Lemma safe_is_not_squote c : is_safe c = true -> c <> squote.
Proof. intros Hc ->. discriminate Hc. Qed.

(** [shlex.quote] puts an argument in single quotes exactly when it is
    empty or holds a character outside the safe set. *)
Lemma quote_wrapped arg :
  wrapped_in squote (quote arg) = is_empty arg || negb (all_safe arg).
Proof.
  unfold quote. destruct arg as [|c arg]; [reflexivity |].
  cbn [is_empty orb].
  destruct (all_safe (String c arg)) eqn:Hsafe; cbn [negb].
  - apply wrapped_in_first. cbn [first_char].
    cbn [all_safe] in Hsafe. apply andb_true_iff in Hsafe as [Hc _].
    intros [= ->]. by apply (safe_is_not_squote squote).
  - apply wrapped_in_intro.
Qed.

(** An argument "containing whitespace or special characters": one with a
    character outside the set [shlex.quote] leaves alone (letters, digits
    and [_@%+=:,./-]). *)
Definition has_whitespace_or_special (arg : string) : bool :=
  negb (all_safe arg).

(** C9 as it is worded: every such argument is individually quoted in the
    command line. *)
Definition every_special_argument_is_quoted : Prop :=
  forall arg, has_whitespace_or_special arg = true ->
              wrapped_in dquote (rendered arg) = true.

(** The argument made of [a], a double quote and [b&c]. *)
Definition awkward_argument : string := "a" +:+ chr dquote +:+ "b&c".

(** C9, as worded, fails: [list2cmdline] backslash-escapes the double
    quote of that argument and leaves it without surrounding quotes. *)
Lemma C9_special_characters_are_not_quoted :
  ~ every_special_argument_is_quoted.
Proof.
  intros H. specialize (H awkward_argument eq_refl).
  vm_compute in H. discriminate H.
Qed.

Example awkward_argument_rendered :
  list2cmdline ["echo"; awkward_argument]
  = "echo a\" +:+ chr dquote +:+ "b&c".
Proof. vm_compute. reflexivity. Qed.

Example port_argument_rendered :
  list2cmdline ["app"; "--port=8888"] = "app --port=8888".
Proof. vm_compute. reflexivity. Qed.

Example spaced_argument_rendered :
  list2cmdline ["C:\Program Files\py.exe"; "-m"; "jupyter lab"]
  = chr dquote +:+ "C:\Program Files\py.exe" +:+ chr dquote +:+ " -m "
    +:+ chr dquote +:+ "jupyter lab" +:+ chr dquote.
Proof. vm_compute. reflexivity. Qed.

(** C9, amended. The command line is one string: [list2cmdline] renders
    each argument on its own and joins the renderings with single spaces.
    An argument is wrapped in double quotes exactly when it is empty or
    holds a space or a tab, whatever else it holds.  With a [shell_cmd],
    [shlex.quote] puts each argument in single quotes exactly when it is
    empty or has a character outside the safe set, and the space-joined
    result is appended to [shell_cmd] as a single last argument.  With
    [shell=True] the launcher wraps the whole command line in double
    quotes after [COMSPEC /c]. *)
Theorem C9_quoting_rules :
  (forall seq, list2cmdline seq = join (chr space) (map rendered seq))
  /\ (forall arg, wrapped_in dquote (rendered arg) = needquote arg)
  /\ (forall arg, wrapped_in squote (quote arg)
                  = is_empty arg || negb (all_safe arg))
  /\ (forall (P : list string -> kwargs -> M popen_obj) self os w cmd kw,
         popen_call (trace (start P self os w)) = Some (cmd, kw) ->
         cmd = if nonempty (shell_cmd self) then
                 shell_cmd self
                 ++ [join " " (map quote
                                 (WinLocalProcessSpawner.cmd self ++ args self))]
               else WinLocalProcessSpawner.cmd self ++ args self)
  /\ (forall self args executable close_fds cwd env startupinfo creationflags
             shell p2cread p2cwrite c2pread c2pwrite errread errwrite os w,
         exists a,
           In (Call (CreateProcessAsUser a))
             (trace (do_execute_child self args executable close_fds [] cwd
                       env startupinfo creationflags shell
                       p2cread p2cwrite c2pread c2pwrite errread errwrite
                       os w))
           /\ cp_commandLine a
              = let line := match args with
                            | inl s => s
                            | inr seq => list2cmdline seq
                            end in
                if shell then
                  default "cmd.exe" (os_environ os !! "COMSPEC")
                  +:+ " /c " +:+ chr dquote +:+ line +:+ chr dquote
                else line).
Proof.
  split; [exact list2cmdline_join |].
  split; [exact rendered_wrapped |].
  split; [exact quote_wrapped |].
  split.
  - intros P self os w cmd kw Hcall.
    destruct (start_popen_kwargs P self os w cmd kw Hcall)
      as (_ & _ & _ & _ & Hcmd).
    exact Hcmd.
  - intros self args executable close_fds cwd env startupinfo creationflags
      shell p2cread p2cwrite c2pread c2pwrite errread errwrite os w.
    destruct (startup_parameters self args executable close_fds cwd env
                startupinfo creationflags shell
                p2cread p2cwrite c2pread c2pwrite errread errwrite os w)
      as (a & Hin & _ & _ & Hline).
    exists a. split; [exact Hin | exact Hline].
Qed.

End CommandLineTheorems.

(** ** Worked examples

    A hub whose environment holds [SYSTEMROOT], [APPDATA] and [TEMP] starts
    a server for a user whose profile block holds [APPDATA] and
    [USERPROFILE]. *)

Section SpawnerExamples.
Import Cmdline PopenAsUser WinLocalProcessSpawner.

(** An operating system for [start]: the launcher's environment, the
    answer of [CreateEnvironmentBlock], of [os.getcwd] and of
    [shutil.which]; every other call succeeds. *)
Definition os_spawn (environ : env_block) (profile : exn + env_block)
    (cwd : exn + string) (which : string -> option string) : oracle :=
  mkOracle None None (fun _ => None) (fun _ _ _ => None) (fun _ _ => None)
    (fun _ => inr "S-1-5-21-1004") created_ok 0 (inr WAIT_TIMEOUT)
    (inr STILL_ACTIVE)
    (fun _ => None) (fun _ => None) (fun _ => true)
    (fun v => inr v) (fun _ => None) (fun _ => profile)
    cwd (inr "C:\Temp\tmp1") which environ
    (fun _ => inr 7%N) (fun _ => 8%N) 3%Z
    (3, 10)%nat (fun _ => None) (fun _ => None) None.

Definition hub_environ : env_block :=
  <["SYSTEMROOT" := "C:\Windows"]>
    (<["APPDATA" := "C:\hub\AppData"]> (<["TEMP" := "C:\Temp"]> ∅)).

Definition user_block : env_block :=
  <["APPDATA" := "C:\Users\ada\AppData\Roaming"]>
    (<["USERPROFILE" := "C:\Users\ada"]> ∅).

(** The user configuration tries to set [env]. *)
Definition spawner1 : spawner :=
  mkSpawner "ada" ["python"; "-m"; "jupyter"; "notebook"] ["--port=8888"] []
    None (<["env" := KEnv (<["SYSTEMROOT" := "X:\other"]> ∅)]> ∅) ∅
    (Some (<["auth_token" := 12345%Z]> ∅)) EmptyString 8888.

Definition which1 (name : string) : option string :=
  if String.eqb name "python" then Some "C:\Python311\python.exe" else None.

Definition os1 : oracle :=
  os_spawn hub_environ (inr user_block) (inr "C:\hub") which1.

Definition cmd1 : list string :=
  ["python"; "-m"; "jupyter"; "notebook"; "--port=8888"].

Definition kw1 : kwargs :=
  <["env" := KEnv (user_block ∪ hub_environ)]>
    (<["token" := KHandle (Some 12345%Z)]> (<["cwd" := KStr "C:\hub"]> ∅)).

Definition P_ok : list string -> kwargs -> M popen_obj :=
  fun _ _ => ret (mkPopen (Some 12345%Z) None true (Some 100%Z) (Some 4242%Z)).

(** The constructor of the repository's test: it raises
    [PermissionError("Access denied")]. *)
Definition P_denied : list string -> kwargs -> M popen_obj :=
  fun _ _ => raise (PermissionError "Access denied").

Lemma call1 (P : list string -> kwargs -> M popen_obj) :
  P = P_ok \/ P = P_denied ->
  popen_call (trace (start P spawner1 os1 world0)) = Some (cmd1, kw1).
Proof. intros [-> | ->]; vm_compute; reflexivity. Qed.

Lemma profile1 (P : list string -> kwargs -> M popen_obj) :
  P = P_ok \/ P = P_denied ->
  loaded_profile os1 (trace (start P spawner1 os1 world0)) = Some user_block.
Proof. intros [-> | ->]; vm_compute; reflexivity. Qed.

Lemma C6_critical_variables_witness :
  In "SYSTEMROOT" win_env_keep
  /\ os_environ os1 !! "SYSTEMROOT" = Some "C:\Windows"
  /\ popen_call (trace (start P_ok spawner1 os1 world0)) = Some (cmd1, kw1)
  /\ exists env, kw1 !! "env" = Some (KEnv env)
                 /\ env !! "SYSTEMROOT" = Some "C:\Windows".
Proof.
  assert (Hin : In "SYSTEMROOT" win_env_keep) by (left; reflexivity).
  assert (Hk : os_environ os1 !! "SYSTEMROOT" = Some "C:\Windows")
    by reflexivity.
  pose proof (call1 P_ok (or_introl eq_refl)) as Hcall.
  split; [exact Hin | split; [exact Hk | split; [exact Hcall |]]].
  destruct (C6_critical_variables_reach_child P_ok spawner1 os1 world0
              cmd1 kw1 "SYSTEMROOT" "C:\Windows" Hin Hk Hcall)
    as (env & Hkw & Hm).
  exists env. split; [exact Hkw |].
  rewrite (profile1 P_ok (or_introl eq_refl)) in Hm. exact Hm.
Defined.

Lemma C10_env_entry_witness :
  popen_call (trace (start P_ok spawner1 os1 world0)) = Some (cmd1, kw1)
  /\ popen_kwargs spawner1 !! "env"
     = Some (KEnv (<["SYSTEMROOT" := "X:\other"]> ∅))
  /\ kw1 !! "env" = Some (KEnv (user_block ∪ hub_environ)).
Proof.
  pose proof (call1 P_ok (or_introl eq_refl)) as Hcall.
  split; [exact Hcall | split; [reflexivity |]].
  destruct (C10_env_entry_is_overwritten P_ok spawner1 os1 world0 cmd1 kw1
              Hcall) as (base & Hbase & Hkw & _).
  rewrite (profile1 P_ok (or_introl eq_refl)) in Hkw.
  assert (Hb : base = hub_environ).
  { assert (Hr : result (get_env spawner1 os1 world0) = inr hub_environ)
      by (vm_compute; reflexivity).
    congruence. }
  rewrite Hb in Hkw. exact Hkw.
Defined.

Lemma P_denied_raises c k os' w' :
  result (P_denied c k os' w') = inl (PermissionError "Access denied").
Proof. reflexivity. Qed.

(** A spawner that wraps its command for a shell. *)
Definition spawner_shell : spawner :=
  mkSpawner "ada" ["jupyter lab"] ["--port=8888"] ["bash"; "-c"]
    None ∅ ∅ None EmptyString 8888.

Definition kw_shell : kwargs :=
  <["env" := KEnv hub_environ]>
    (<["token" := KHandle None]> (<["cwd" := KStr "C:\hub"]> ∅)).

Lemma C9_shell_wrapper_witness :
  popen_call (trace (start P_ok spawner_shell os1 world0))
  = Some (["bash"; "-c"; "'jupyter lab' --port=8888"], kw_shell)
  /\ ["bash"; "-c"; "'jupyter lab' --port=8888"]
     = (if nonempty (shell_cmd spawner_shell) then
          shell_cmd spawner_shell
          ++ [join " " (map quote (WinLocalProcessSpawner.cmd spawner_shell
                                   ++ args spawner_shell))]
        else WinLocalProcessSpawner.cmd spawner_shell ++ args spawner_shell)
  /\ wrapped_in dquote (rendered "jupyter lab") = true
  /\ wrapped_in dquote (rendered "--port=8888") = false.
Proof.
  assert (Hcall : popen_call (trace (start P_ok spawner_shell os1 world0))
                  = Some (["bash"; "-c"; "'jupyter lab' --port=8888"],
                          kw_shell))
    by (vm_compute; reflexivity).
  destruct C9_quoting_rules as (_ & Hq & _ & Hcmd & _).
  split; [exact Hcall | split; [| split]].
  - exact (Hcmd P_ok spawner_shell os1 world0 _ _ Hcall).
  - rewrite (Hq "jupyter lab"). reflexivity.
  - rewrite (Hq "--port=8888"). reflexivity.
Defined.

(** The four tiers of the working directory. *)
Definition dirs (l : list string) : world :=
  mkWorld (fun _ => None) (list_to_set l).

Definition os_no_cwd : oracle :=
  os_spawn hub_environ (inr user_block) (inl (OSError "getcwd")) which1.

Definition spawner_dir : spawner :=
  mkSpawner "ada" ["app"] [] [] (Some "D:\notebooks") ∅ ∅ None EmptyString
    8888.

Example configured_directory_wins :
  result (_determine_working_directory spawner_dir (Some user_block) os1
            (dirs ["D:\notebooks"; "C:\Users\ada"]))
  = inr "D:\notebooks".
Proof. vm_compute. reflexivity. Qed.

Example profile_directory_is_second :
  result (_determine_working_directory spawner_dir (Some user_block) os1
            (dirs ["C:\Users\ada"]))
  = inr "C:\Users\ada".
Proof. vm_compute. reflexivity. Qed.

Example current_directory_is_third :
  result (_determine_working_directory spawner_dir (Some user_block) os1
            (dirs []))
  = inr "C:\hub".
Proof. vm_compute. reflexivity. Qed.

Example temporary_directory_is_last :
  let o := _determine_working_directory spawner_dir (Some user_block)
             os_no_cwd (dirs []) in
  result o = inr "C:\Temp\tmp1"
  /\ bool_decide ("C:\Temp\tmp1" ∈ w_dirs (final o)) = true.
Proof. split; vm_compute; reflexivity. Qed.

End SpawnerExamples.

(** * Further properties of the code *)

(** ** The access grantor, when it fails or runs again *)

Section GrantorRuns.
Import Grantor.

Ltac unfold_setup_sacl :=
  unfold setup_sacl, open_window_station, open_desktop,
    get_security_descriptor_dacl, add_access_allowed_ace, set_security_info.

(** The grantor got as far as opening the desktop. *)
Definition reached_desktop (t : list event) : bool :=
  existsb (fun ev => match ev with
                     | Call (OpenDesktop _ _) => true
                     | _ => false
                     end) t.

(** The DACLs a grant that returned normally leaves. *)
Lemma grant_final_dacls sid os w :
  result (setup_sacl sid os w) = inr tt ->
  w_dacl (final (setup_sacl sid os w)) WinSta0
  = Some (entries (w_dacl w WinSta0)
          ++ [allow GENERIC_ACCESS sid; allow WINSTA_ALL sid])
  /\ w_dacl (final (setup_sacl sid os w)) DefaultDesktop
     = Some (entries (w_dacl w DefaultDesktop)
             ++ [allow GENERIC_ACCESS sid; allow DESKTOP_ALL sid]).
Proof.
  unfold_setup_sacl. run. repeat split_answer; try discriminate.
  all: intros _; unfold entries, allow; use_dacl;
    rewrite <- ?app_assoc; cbn; done.
Qed.

(** X1. A grant that raises has logged the exception it re-raises as its last
    act.  Nothing is rolled back: the desktop DACL is as it was, and the
    window-station DACL already holds the two new entries when the failure
    happened on the desktop. *)
Theorem failed_grant_is_not_rolled_back sid os w e :
  let o := setup_sacl sid os w in
  result o = inl e ->
  last (trace o) = Some (Log ERROR (Msg_setup_sacl_failed sid e))
  /\ w_dacl (final o) DefaultDesktop = w_dacl w DefaultDesktop
  /\ w_dacl (final o) WinSta0
     = if reached_desktop (trace o) then
         Some (entries (w_dacl w WinSta0)
               ++ [allow GENERIC_ACCESS sid; allow WINSTA_ALL sid])
       else w_dacl w WinSta0.
Proof.
  unfold_setup_sacl. run. repeat split_answer; try discriminate.
  all: intros [= <-]; cbn.
  all: repeat split; try reflexivity.
  all: unfold entries, allow; use_dacl; rewrite <- ?app_assoc; cbn; done.
Qed.

(** X2. The grantor does not look for entries it added before: a second grant
    that returns normally appends its two entries again, after those of the
    first, on both objects. *)
Theorem repeated_grant_appends_again sid1 sid2 os w :
  let o1 := setup_sacl sid1 os w in
  let o2 := setup_sacl sid2 os (final o1) in
  result o1 = inr tt -> result o2 = inr tt ->
  w_dacl (final o2) WinSta0
  = Some (entries (w_dacl w WinSta0)
          ++ [allow GENERIC_ACCESS sid1; allow WINSTA_ALL sid1;
              allow GENERIC_ACCESS sid2; allow WINSTA_ALL sid2])
  /\ w_dacl (final o2) DefaultDesktop
     = Some (entries (w_dacl w DefaultDesktop)
             ++ [allow GENERIC_ACCESS sid1; allow DESKTOP_ALL sid1;
                 allow GENERIC_ACCESS sid2; allow DESKTOP_ALL sid2]).
Proof.
  intros o1 o2 H1 H2.
  destruct (grant_final_dacls sid1 os w H1) as [Hw1 Hd1].
  destruct (grant_final_dacls sid2 os (final o1) H2) as [Hw2 Hd2].
  subst o1 o2. rewrite Hw2, Hd2, Hw1, Hd1. unfold entries. cbn.
  by rewrite <- !app_assoc.
Qed.

(** On this machine the desktop cannot be opened. *)
Definition os_no_desktop : oracle :=
  mkOracle None (Some (WinError 5 "OpenDesktop")) (fun _ => None)
    (fun _ _ _ => None) (fun _ _ => None)
    (fun _ => inr "S-1-5-21-1004") created_ok 0 (inr WAIT_TIMEOUT)
    (inr STILL_ACTIVE)
    (fun _ => None) (fun _ => None) (fun _ => true)
    (fun v => inr v) (fun _ => None) (fun _ => inr ∅)
    (inr "C:\hub") (inr "C:\Temp\tmp1") (fun _ => None) ∅
    (fun _ => inr 7%N) (fun _ => 8%N) 3%Z
    (3, 10)%nat (fun _ => None) (fun _ => None) None.

Lemma failed_grant_witness :
  result (setup_sacl "S-1-5-21-1004" os_no_desktop world0)
  = inl (WinError 5 "OpenDesktop")
  /\ w_dacl (final (setup_sacl "S-1-5-21-1004" os_no_desktop world0))
       DefaultDesktop = None
  /\ w_dacl (final (setup_sacl "S-1-5-21-1004" os_no_desktop world0)) WinSta0
     = Some [allow GENERIC_ACCESS "S-1-5-21-1004";
             allow WINSTA_ALL "S-1-5-21-1004"].
Proof.
  assert (Hr : result (setup_sacl "S-1-5-21-1004" os_no_desktop world0)
               = inl (WinError 5 "OpenDesktop")) by (vm_compute; reflexivity).
  split; [exact Hr |].
  destruct (failed_grant_is_not_rolled_back "S-1-5-21-1004" os_no_desktop
              world0 (WinError 5 "OpenDesktop") Hr) as (_ & Hd & Hw).
  split; [exact Hd |].
  rewrite Hw. vm_compute. reflexivity.
Defined.

Lemma repeated_grant_witness :
  let os := os_example (inr "S-1-5-21-1004") created_ok 0 (inr WAIT_TIMEOUT)
              (inr STILL_ACTIVE) in
  let o1 := setup_sacl "S-1-5-21-1004" os world0 in
  let o2 := setup_sacl "S-1-5-21-1004" os (final o1) in
  result o1 = inr tt /\ result o2 = inr tt
  /\ w_dacl (final o2) WinSta0
     = Some [allow GENERIC_ACCESS "S-1-5-21-1004";
             allow WINSTA_ALL "S-1-5-21-1004";
             allow GENERIC_ACCESS "S-1-5-21-1004";
             allow WINSTA_ALL "S-1-5-21-1004"].
Proof.
  intros os o1 o2.
  assert (H1 : result o1 = inr tt) by (vm_compute; reflexivity).
  assert (H2 : result o2 = inr tt) by (vm_compute; reflexivity).
  split; [exact H1 | split; [exact H2 |]].
  exact (proj1 (repeated_grant_appends_again "S-1-5-21-1004" "S-1-5-21-1004"
                  os world0 H1 H2)).
Defined.




End GrantorRuns.

(** ** Closing the child's pipe ends *)

Section PipeEnds.
Import Grantor Cmdline PopenAsUser.

Lemma close_one_calls os name h name' h' :
  In (Call (Handle_Close name' h')) (close_one os name h)
  <-> (h', name') = (h, name) /\ h <> (-1)%Z.
Proof.
  unfold close_one. destruct (Z.eqb_spec h (-1)) as [-> | Hne]; cbn.
  - intuition congruence.
  - destruct (os_Handle_Close os h); cbn; intuition congruence.
Qed.

Lemma close_devnull_no_handle_close os self name h :
  ~ In (Call (Handle_Close name h)) (close_devnull os self).
Proof.
  unfold close_devnull. destruct (_devnull self); [| cbn; tauto].
  destruct (os_close os _); cbn; intuition congruence.
Qed.

Lemma close_one_no_os_close os name h fd :
  ~ In (Call (os_close_fd fd)) (close_one os name h).
Proof.
  unfold close_one. destruct (h =? -1)%Z; [cbn; tauto |].
  destruct (os_Handle_Close os h); cbn; intuition congruence.
Qed.

Lemma close_devnull_calls os self fd :
  In (Call (os_close_fd fd)) (close_devnull os self)
  <-> _devnull self = Some fd.
Proof.
  unfold close_devnull. destruct (_devnull self) as [fd'|]; cbn.
  - destruct (os_close os fd'); cbn; intuition congruence.
  - intuition congruence.
Qed.

(** X3. [_close_pipe_handles] never raises and leaves the machine's state
    alone.  It calls [Close] on exactly those of the three child ends that
    are not [-1], and [os.close] on the null device exactly when the object
    has one; a close that raises is logged as a warning and the remaining
    ones are still made. *)
Theorem close_pipe_handles_never_raises self p2cread c2pwrite errwrite os w :
  let o := _close_pipe_handles self p2cread c2pwrite errwrite os w in
  let ends := [(p2cread, "p2cread"); (c2pwrite, "c2pwrite");
               (errwrite, "errwrite")] in
  result o = inr tt /\ final o = w
  /\ (forall name h, In (Call (Handle_Close name h)) (trace o)
                     <-> In (h, name) ends /\ h <> (-1)%Z)
  /\ (forall name h e, In (h, name) ends -> h <> (-1)%Z ->
        os_Handle_Close os h = Some e ->
        In (Log WARNING (Msg_close_pipe_failed name e)) (trace o))
  /\ (forall fd, In (Call (os_close_fd fd)) (trace o)
                 <-> _devnull self = Some fd)
  /\ (forall fd e, _devnull self = Some fd -> os_close os fd = Some e ->
        In (Log WARNING (Msg_close_devnull_failed e)) (trace o)).
Proof.
  intros o ends. subst o ends. rewrite close_pipe_handles_run.
  cbn [result final trace].
  split; [reflexivity | split; [reflexivity |]].
  unfold pipe_close_trace.
  split; [| split; [| split]].
  - intros name h. rewrite !in_app_iff, !close_one_calls.
    pose proof (close_devnull_no_handle_close os self name h).
    cbn [In]. intuition congruence.
  - intros name h e Hin Hh He. apply Z.eqb_neq in Hh.
    rewrite !in_app_iff. unfold close_one.
    destruct Hin as [[= <- <-] | [[= <- <-] | [[= <- <-] | []]]];
      rewrite Hh, He; cbn; tauto.
  - intros fd. rewrite !in_app_iff, close_devnull_calls.
    pose proof (close_one_no_os_close os "p2cread" p2cread fd).
    pose proof (close_one_no_os_close os "c2pwrite" c2pwrite fd).
    pose proof (close_one_no_os_close os "errwrite" errwrite fd).
    tauto.
  - intros fd e Hfd He. rewrite !in_app_iff. unfold close_devnull.
    rewrite Hfd, He. cbn. tauto.
Qed.

End PipeEnds.

(** ** The launcher: what decides its outcome *)

Section LaunchOutcome.
Import Grantor Cmdline PopenAsUser.

(** X4. [pass_fds] is not supported: with a non-empty one the launcher raises
    [AssertionError] at once, before any call or log record. *)
Theorem pass_fds_are_refused
    self args executable close_fds pass_fds cwd env startupinfo creationflags
    shell p2cread p2cwrite c2pread c2pwrite errread errwrite os w :
  pass_fds <> [] ->
  do_execute_child self args executable close_fds pass_fds cwd env
    startupinfo creationflags shell
    p2cread p2cwrite c2pread c2pwrite errread errwrite os w
  = Out [] w (inl AssertionError).
Proof.
  intros Hne. destruct pass_fds as [|fd rest]; [done |].
  unfold do_execute_child. run. reflexivity.
Qed.

Lemma pass_fds_witness :
  [5%Z] <> []
  /\ do_execute_child popen0 (inr ["app"]) None false [5%Z] None None None 0
       false (-1) (-1) (-1) (-1) (-1) (-1) os_still_running world0
     = Out [] world0 (inl AssertionError).
Proof.
  assert (Hne : [5%Z] <> []) by discriminate.
  split; [exact Hne |].
  exact (pass_fds_are_refused popen0 (inr ["app"]) None false [5%Z] None None
           None 0%Z false (-1)%Z (-1)%Z (-1)%Z (-1)%Z (-1)%Z (-1)%Z
           os_still_running world0 Hne).
Defined.

(** Calls the launcher makes only after [CreateProcessAsUser] returned. *)
Definition follows_creation (c : oscall) : bool :=
  match c with
  | GetLastError | WaitForSingleObject _ _ | GetExitCodeProcess _
  | CloseHandle _ | PyHANDLE_Detach _ => true
  | _ => false
  end.

(** X5. When [CreateProcessAsUser] raises, the launcher logs the exception,
    still closes the child's pipe ends, and re-raises that exception; it
    makes none of the calls that follow a creation. *)
Theorem create_failure_is_logged_and_reraised
    self args executable close_fds cwd env startupinfo creationflags shell
    p2cread p2cwrite c2pread c2pwrite errread errwrite os w e :
  os_CreateProcessAsUser os = inl e ->
  let o := do_execute_child self args executable close_fds [] cwd env
             startupinfo creationflags shell
             p2cread p2cwrite c2pread c2pwrite errread errwrite os w in
  result o = inl e
  /\ In (Log ERROR (Msg_create_exception e)) (trace o)
  /\ (forall h name,
         In (h, name) [(p2cread, "p2cread"); (c2pwrite, "c2pwrite");
                       (errwrite, "errwrite")] ->
         h <> (-1)%Z -> In (Call (Handle_Close name h)) (trace o))
  /\ (forall c, follows_creation c = true -> ~ In (Call c) (trace o)).
Proof.
  intros He.
  exec_child.
  all: exec_grant.
  all: exec_rest.
  all: cbn in *.
  all: split; [reflexivity | split; [find_in | split]].
  all: try (intros h name Hin Hh;
            pose proof (pipe_close_attempts os self _ _ _ _ _ Hin Hh);
            find_in).
  all: intros c Hc Hin; destruct c; try discriminate Hc; elim_in Hin.
Qed.

(** The exception of the liveness probes, if one is raised. *)
Definition probe_error (os : oracle) : option exn :=
  if negb (os_GetLastError os =? 0)%Z then None
  else match os_WaitForSingleObject os with
       | inl e => Some e
       | inr r =>
           if (r =? WAIT_OBJECT_0)%Z then
             match os_GetExitCodeProcess os with
             | inl e => Some e
             | inr _ => None
             end
           else None
       end.

(** What a launch returns or raises, read off the answers of
    [CreateProcessAsUser], of the liveness probes and of the [Detach] of
    the process handle. *)
Definition launch_result (os : oracle) (self : popen_obj)
  : exn + popen_obj :=
  match os_CreateProcessAsUser os with
  | inl e => inl e
  | inr (hp, ht, pid_, tid) =>
      match probe_error os with
      | Some e => inl e
      | None =>
          if negb (hp =? 0)%Z then
            match os_Detach os hp with
            | Some e => inl e
            | None =>
                inr (mkPopen (_token self) (_devnull self) true
                             (Some hp) (Some pid_))
            end
          else
            inr (mkPopen (_token self) (_devnull self) true
                         (_handle self) (pid self))
      end
  end.

(** X6. The outcome of a launch depends on [CreateProcessAsUser], the liveness
    probes and the [Detach] of the process handle only: no failure of the
    identity lookup, of the grantor, of a pipe or null-device close or of
    [CloseHandle] makes it raise or changes the object it returns.  When it
    returns, the object is marked as having a child, and holds the process
    handle and the pid when the handle is not null. *)
Theorem launch_outcome
    self args executable close_fds cwd env startupinfo creationflags shell
    p2cread p2cwrite c2pread c2pwrite errread errwrite os w :
  result (do_execute_child self args executable close_fds [] cwd env
            startupinfo creationflags shell
            p2cread p2cwrite c2pread c2pwrite errread errwrite os w)
  = launch_result os self.
Proof.
  unfold launch_result, probe_error.
  exec_child.
  all: exec_grant.
  all: exec_rest.
  all: cbn in *.
  all: repeat match goal with
         | H : ?x = _ |- context [?x] => rewrite H
         end; cbn.
  all: try reflexivity.
  all: repeat match goal with
         | H : negb _ = true |- _ => apply negb_true_iff in H
         | H : negb _ = false |- _ => apply negb_false_iff in H
         end.
  all: repeat match goal with
         | H : ?x = _ |- context [?x] => rewrite H
         end; cbn.
  all: try reflexivity.
Qed.

End LaunchOutcome.

(** ** The launcher: the arguments of the create call *)

Section CreateArguments.
Import Grantor Cmdline PopenAsUser.

(** [STARTF_USESHOWWINDOW] is bit 0 of [dwFlags]. *)
Definition uses_show_window (si : STARTUPINFO) : bool :=
  Z.testbit (dwFlags si) 0.

(** What lines 308-312 of [win_utils.py] make of the window settings of the
    startup parameters [si0]. *)
Definition window_settings (shell : bool) (si0 si : STARTUPINFO) : Prop :=
  if shell then uses_show_window si = true /\ wShowWindow si = SW_HIDE
  else uses_show_window si = uses_show_window si0
       /\ wShowWindow si = wShowWindow si0.

Lemma window_startupinfo p2cread c2pwrite errwrite startupinfo (shell : bool) :
  let si0 := default STARTUPINFO_new startupinfo in
  let si1 :=
    if negb ((p2cread =? -1) || (c2pwrite =? -1) || (errwrite =? -1))%Z then
      mkSI (dwFlags si0 .| STARTF_USESTDHANDLES)
           p2cread c2pwrite errwrite (wShowWindow si0)
    else si0 in
  let si2 :=
    if shell then
      mkSI (dwFlags si1 .| STARTF_USESHOWWINDOW)
           (hStdInput si1) (hStdOutput si1) (hStdError si1) SW_HIDE
    else si1 in
  window_settings shell si0 si2.
Proof.
  intros si0 si1 si2. subst si1 si2. unfold window_settings, uses_show_window.
  generalize si0. clear. intros si0.
  destruct (negb _), shell;
    unfold dwFlags, wShowWindow;
    rewrite ?Z.lor_spec; destruct si0;
    unfold STARTF_USESTDHANDLES, STARTF_USESHOWWINDOW;
    change (Z.testbit 256 0) with false; change (Z.testbit 1 0) with true;
    rewrite ?orb_true_r, ?orb_false_r; done.
Qed.

(** X8. With [shell=True] the create call asks for a hidden window: its
    startup parameters have [STARTF_USESHOWWINDOW] set and [wShowWindow] is
    [SW_HIDE].  Without, the window settings are those the caller gave (of
    a fresh [STARTUPINFO] when none), whatever is done to the stream
    handles. *)
Theorem shell_launch_hides_window
    self args executable close_fds cwd env startupinfo creationflags shell
    p2cread p2cwrite c2pread c2pwrite errread errwrite os w :
  let o := do_execute_child self args executable close_fds [] cwd env
             startupinfo creationflags shell
             p2cread p2cwrite c2pread c2pwrite errread errwrite os w in
  exists a, In (Call (CreateProcessAsUser a)) (trace o)
    /\ (forall a', In (Call (CreateProcessAsUser a')) (trace o) -> a' = a)
    /\ window_settings shell (default STARTUPINFO_new startupinfo)
         (cp_startupinfo a).
Proof.
  exec_prelude.
  all: match goal with
       | |- context [mkCreate _ _ ?c _ _ _ _ ?si] =>
           assert (Hsi : window_settings _
                           (default STARTUPINFO_new startupinfo) si)
             by first
                  [ exact (window_startupinfo p2cread c2pwrite errwrite
                             startupinfo true)
                  | exact (window_startupinfo p2cread c2pwrite errwrite
                             startupinfo false) ];
           revert Hsi; generalize si; generalize c; intros ? ? Hsi
       end.
  all: exec_grant.
  all: exec_rest.
  all: cbn in *.
  all: eexists; split; [find_in | split; [| exact Hsi]].
  all: intros a' Hin; elim_in Hin; reflexivity.
Qed.

(** The other arguments of every create call the launcher makes. *)
Lemma create_arguments
    self args executable close_fds cwd env startupinfo creationflags shell
    p2cread p2cwrite c2pread c2pwrite errread errwrite os w a :
  In (Call (CreateProcessAsUser a))
    (trace (do_execute_child self args executable close_fds [] cwd env
              startupinfo creationflags shell
              p2cread p2cwrite c2pread c2pwrite errread errwrite os w)) ->
  cp_token a = _token self /\ cp_appName a = executable
  /\ cp_inheritHandles a = Z.b2z (negb close_fds)
  /\ cp_creationFlags a = creationflags
  /\ cp_env a = env /\ cp_cwd a = cwd.
Proof.
  exec_child.
  all: exec_grant.
  all: exec_rest.
  all: cbn in *.
  all: intros Hin; elim_in Hin; repeat split.
Qed.

(** X9. A [PopenAsUser(...)] call that reaches [CreateProcessAsUser] hands
    it the token, the executable, the creation flags, the environment and
    the working directory it was given unchanged, and always asks for
    handle inheritance ([bInheritHandles] is 1), redirected streams or not.
    It reaches it only on a Python version on which [Popen.__init__] can
    call [_execute_child], which excludes 3.11 and 3.12. *)
Theorem constructor_passes_arguments
    (args : string + list string) (p : popen_params) os w a :
  In (Call (CreateProcessAsUser a)) (trace (__init__ args p os w)) ->
  dispatch_fits (sys_version_info os) = true
  /\ cp_token a = pa_token p /\ cp_appName a = pa_executable p
  /\ cp_inheritHandles a = 1%Z
  /\ cp_creationFlags a = pa_creationflags p
  /\ cp_env a = pa_env p /\ cp_cwd a = pa_cwd p.
Proof.
  unfold __init__, _get_handles, _make_inheritable.
  destruct (pa_stdin p) as [i|], (pa_stdout p) as [o|], (pa_stderr p) as [e|];
    run.
  all: repeat match goal with
         | |- context [os_inheritable ?o' ?n] =>
             destruct (os_inheritable o' n) eqn:?; run
         end.
  all: try (intros []).
  all: rewrite execute_child_run.
  all: destruct (dispatch_fits (sys_version_info os)); [| intros []].
  all: split; [reflexivity |]; revert H.
  all: match goal with
       | |- context [do_execute_child ?self ?a0 ?ex ?cf [] ?cwd ?env ?si ?fl
                       ?sh ?h1 ?h2 ?h3 ?h4 ?h5 ?h6 ?o' ?w'] =>
           pose proof (create_arguments self a0 ex cf cwd env si fl sh
                         h1 h2 h3 h4 h5 h6 o' w' a) as Hargs;
           destruct (do_execute_child self a0 ex cf [] cwd env si fl sh
                       h1 h2 h3 h4 h5 h6 o' w') as [t wf r]
       end.
  all: cbn in *; intros Hin; apply Hargs in Hin.
  all: repeat case_match; cbn in *; exact Hin.
Qed.

(** A launch with its standard output sent to a pipe. *)
Definition params_piped : popen_params :=
  mkParams None None (Some PIPE) None false (Some "C:\Users\ada")
    None None 0 (Some 12345%Z).

Lemma constructor_arguments_witness :
  let a := mkCreate (Some 12345%Z) None "app --port=8888" 1 0
             None (Some "C:\Users\ada") (mkSI 256 7 7 7 0) in
  In (Call (CreateProcessAsUser a))
    (trace (__init__ (inr ["app"; "--port=8888"]) params_piped
              os_still_running world0))
  /\ sys_version_info os_still_running = (3, 10)%nat
  /\ cp_inheritHandles a = 1%Z /\ cp_cwd a = pa_cwd params_piped.
Proof.
  intros a.
  assert (Hin : In (Call (CreateProcessAsUser a))
                  (trace (__init__ (inr ["app"; "--port=8888"]) params_piped
                            os_still_running world0))).
  { vm_compute. repeat first [left; reflexivity | right]. }
  split; [exact Hin |].
  destruct (constructor_passes_arguments (inr ["app"; "--port=8888"])
              params_piped os_still_running world0 a Hin)
    as (_ & _ & _ & Hinh & _ & _ & Hcwd).
  split; [reflexivity | split; [exact Hinh | exact Hcwd]].
Defined.

End CreateArguments.

(** ** Leaving the context manager: [__exit__] *)

Section ExitFacts.
Import Grantor Cmdline PopenAsUser.

(** What [__exit__] does before it hands over to [Popen.__exit__]. *)
Definition exit_detach (os : oracle) (self : popen_obj) : list event :=
  if truthy (_token self) then
    Call (PyHANDLE_Detach (default 0%Z (_token self)))
    :: match os_Detach os (default 0%Z (_token self)) with
       | Some e => [Log WARNING (Msg_exit_detach_failed e)]
       | None => []
       end
  else [].

(** X10. [__exit__] detaches the token when the object holds a non-null one,
    exactly once and before anything else; a [Detach] that raises is logged
    as a warning.  In every case [Popen.__exit__] runs next, on the same
    state, and what it returns or raises is the outcome of [__exit__]. *)
Theorem exit_detaches_then_delegates
    (Popen__exit__ : popen_obj -> M unit) self os w :
  __exit__ Popen__exit__ self os w
  = Out (exit_detach os self ++ trace (Popen__exit__ self os w))
        (final (Popen__exit__ self os w))
        (result (Popen__exit__ self os w)).
Proof.
  unfold __exit__, exit_detach, Detach. run.
  destruct (truthy (_token self)); run.
  - destruct (os_Detach os _); run;
      by destruct (Popen__exit__ self os w).
  - by destruct (Popen__exit__ self os w).
Qed.

End ExitFacts.

(** ** The environment: [user_env] and [get_env] *)

Section EnvironmentFacts.
Import Cmdline PopenAsUser WinLocalProcessSpawner.

(** X11. [get_env] makes no call, never raises and leaves the machine's state
    alone.  Of the base environment it changes the five OS-critical
    variables only, and those only where the launcher's own environment
    has them: every other variable, and a critical one the launcher does
    not have, is as the base environment has it. *)
Theorem get_env_changes_only_critical_variables self os w :
  exists env,
    get_env self os w = Out [] w (inr env)
    /\ forall k,
         env !! k = if bool_decide (k ∈ win_env_keep) then
                      match os_environ os !! k with
                      | Some v => Some v
                      | None => base_env self !! k
                      end
                    else base_env self !! k.
Proof.
  exists (fold_left
            (fun (env : env_block) key =>
               match os_environ os !! key with
               | Some v => <[key := v]> env
               | None => env
               end) win_env_keep (base_env self)).
  split; [reflexivity |].
  intros k. apply keep_fold.
Qed.

(** X12. [user_env] sets [USER] to the name of the user, whatever the
    dictionary held, and nothing else.  [USER] is not one of the
    OS-critical variables, so a base environment that went through
    [user_env] comes out of [get_env] with that [USER], and with every
    other non-critical variable as [user_env] was given it. *)
Theorem user_name_survives_get_env self os w env0 :
  base_env self = user_env self env0 ->
  exists env,
    result (get_env self os w) = inr env
    /\ env !! "USER" = Some (user_name self)
    /\ forall k, k <> "USER" -> k ∉ win_env_keep -> env !! k = env0 !! k.
Proof.
  intros Hbase.
  exists (fold_left
            (fun (env : env_block) key =>
               match os_environ os !! key with
               | Some v => <[key := v]> env
               | None => env
               end) win_env_keep (base_env self)).
  split; [reflexivity |].
  split.
  - rewrite keep_fold, Hbase. cbn. unfold user_env. apply lookup_insert_eq.
  - intros k Hk Hkeep. rewrite keep_fold.
    rewrite bool_decide_eq_false_2 by done.
    rewrite Hbase. unfold user_env. by rewrite lookup_insert_ne.
Qed.

(** The hub's base environment after [user_env]. *)
Definition spawner_ada : spawner :=
  mkSpawner "ada" ["app"] [] [] None ∅
    (user_env (mkSpawner "ada" [] [] [] None ∅ ∅ None EmptyString 0)
       (<["USER" := "hub"]> (<["LANG" := "C"]> ∅)))
    None EmptyString 8888.

Lemma user_name_witness :
  exists env,
    result (get_env spawner_ada os1 world0) = inr env
    /\ env !! "USER" = Some "ada" /\ env !! "LANG" = Some "C".
Proof.
  destruct (user_name_survives_get_env spawner_ada os1 world0
              (<["USER" := "hub"]> (<["LANG" := "C"]> ∅)) eq_refl)
    as (env & Hrun & Huser & Hrest).
  exists env. split; [exact Hrun | split; [exact Huser |]].
  rewrite (Hrest "LANG"); [reflexivity | discriminate |].
  rewrite list_elem_of_In. cbn. intuition discriminate.
Defined.

End EnvironmentFacts.

(** ** The working directory: what the resolution touches *)

Section DirectoryFacts.
Import Cmdline PopenAsUser WinLocalProcessSpawner.

(** X19. The resolution asks for the current directory only when neither the
    configured nor the profile directory resolves, and creates a temporary
    directory only when, on top of that, [os.getcwd] raised; unless it
    creates one it leaves the disk as it was.  A configured directory that
    is not on disk is reported by a warning. *)
Theorem temporary_directory_is_last_resort self user_env os w :
  let o := _determine_working_directory self user_env os w in
  (In (Call os_getcwd) (trace o)
   <-> configured_dir self w = None /\ profile_dir user_env w = None)
  /\ (In (Call mkdtemp) (trace o)
      <-> configured_dir self w = None /\ profile_dir user_env w = None
          /\ exists e, os_getcwd_result os = inl e)
  /\ (~ In (Call mkdtemp) (trace o) -> final o = w)
  /\ (forall d, In (Log WARNING (Msg_notebook_dir_missing d)) (trace o)
                <-> notebook_dir self = Some d /\ is_empty d = false
                    /\ d ∉ w_dirs w).
Proof.
  unfold _determine_working_directory, isdir, getcwd, mkdtemp_,
    configured_dir, profile_dir, str_truthy.
  run.
  repeat split_answer.
  all: repeat match goal with
         | H : bool_decide _ = true |- _ => apply bool_decide_eq_true_1 in H
         | H : bool_decide _ = false |- _ => apply bool_decide_eq_false_1 in H
         | H : negb _ = true |- _ => apply negb_true_iff in H
         | H : negb _ = false |- _ => apply negb_false_iff in H
         end.
  all: cbn.
  all: repeat match goal with
         | |- _ /\ _ => split
         | |- _ <-> _ => split
         | |- forall _, _ => intro
         end.
  all: try reflexivity.
  all: repeat match goal with
         | H : _ /\ _ |- _ => destruct H
         | H : _ \/ _ |- _ => destruct H
         | H : exists _, _ |- _ => destruct H
         | H : False |- _ => destruct H
         | H : Some _ = Some _ |- _ => injection H as H; subst
         | H : Log _ _ = Log _ _ |- _ => injection H as H; subst
         end; try discriminate.
  all: try (exfalso; tauto).
  all: try tauto.
  all: try by eexists.
  all: try congruence.
Qed.

End DirectoryFacts.

(** ** Command lines: arguments that need no quoting *)

Section PlainArguments.
Import Cmdline PopenAsUser WinLocalProcessSpawner.

(** An argument that is not empty and holds no space, tab or double
    quote. *)
Definition plain (arg : string) : bool :=
  negb (needquote arg) && negb (contains dquote arg).

(** A character other than the double quote is appended as it is. *)
Lemma l2c_char_plain st c :
  all_backslashes (snd st) -> Ascii.eqb dquote c = false ->
  out (l2c_char st c) = out st +:+ chr c
  /\ all_backslashes (snd (l2c_char st c)).
Proof.
  destruct st as [r bs]. intros Hbs Hc. cbn [snd] in Hbs.
  rewrite Ascii.eqb_sym in Hc.
  unfold l2c_char, out. rewrite Hc.
  destruct (Ascii.eqb_spec c backslash) as [-> | _]; cbn [fst snd].
  - split.
    + by rewrite cat_app, cat_cons, <- append_assoc_r.
    + apply Forall_app. split; [done | by constructor].
  - split; [| constructor].
    rewrite cat_app, cat_if_nonempty, cat_cons.
    change (cat []) with EmptyString.
    by rewrite !append_empty_r.
Qed.

Lemma l2c_chars_plain arg : forall st,
  all_backslashes (snd st) -> contains dquote arg = false ->
  out (l2c_chars arg st) = out st +:+ arg.
Proof.
  induction arg as [|c arg IH]; intros st Hbs Hq; cbn [l2c_chars].
  - by rewrite append_empty_r.
  - cbn [contains] in Hq. apply orb_false_iff in Hq as [Hc Hq].
    destruct (l2c_char_plain st c Hbs Hc) as [Hout Hbs'].
    rewrite IH, Hout by done.
    by rewrite append_assoc_r.
Qed.

Lemma rendered_plain arg : plain arg = true -> rendered arg = arg.
Proof.
  unfold plain. intros H. apply andb_true_iff in H as [Hn Hq].
  apply negb_true_iff in Hn, Hq.
  unfold rendered, l2c_arg. rewrite Hn. cbn [nonempty].
  pose proof (l2c_chars_plain arg ([], []) (Forall_nil_2 _) Hq) as Hout.
  destruct (l2c_chars arg ([], [])) as [r bs].
  rewrite cat_if_nonempty. exact Hout.
Qed.

(** X20. Arguments that are not empty and hold no space, tab or double
    quote reach the command line unchanged, backslashes included: the command
    line is those arguments joined by single spaces. *)
Theorem plain_arguments_pass_verbatim (seq : list string) :
  forallb plain seq = true -> list2cmdline seq = join " " seq.
Proof.
  intros Hplain. rewrite list2cmdline_join.
  change (chr space) with " ". f_equal.
  induction seq as [|a seq IH]; [done |].
  cbn [forallb] in Hplain. apply andb_true_iff in Hplain as [Ha Hseq].
  cbn [map]. by rewrite rendered_plain, IH.
Qed.

Lemma plain_arguments_witness :
  forallb plain ["C:\Python311\python.exe"; "-m"; "jupyterhub-singleuser";
                 "--port=8888"] = true
  /\ list2cmdline ["C:\Python311\python.exe"; "-m"; "jupyterhub-singleuser";
                   "--port=8888"]
     = "C:\Python311\python.exe -m jupyterhub-singleuser --port=8888".
Proof.
  assert (H : forallb plain ["C:\Python311\python.exe"; "-m";
                             "jupyterhub-singleuser"; "--port=8888"] = true)
    by (vm_compute; reflexivity).
  split; [exact H |].
  rewrite (plain_arguments_pass_verbatim _ H). vm_compute. reflexivity.
Defined.

End PlainArguments.

(** ** The spawner: what reaches the constructor *)

(** Like [start_prefix], keeping the outcome of the working-directory
    resolution as an equation. *)
Ltac start_until_call P :=
  unfold WinLocalProcessSpawner.start, WinLocalProcessSpawner.HANDLE,
    WinLocalProcessSpawner.create_environment_block,
    WinLocalProcessSpawner.which_or, PopenAsUser.Detach;
  run_keep;
  match goal with
  | |- context [WinLocalProcessSpawner.get_env ?s ?o ?w] =>
      let base := fresh "base" in
      let Hbase := fresh "Hbase" in
      destruct (get_env_run s o w) as [base Hbase]; rewrite !Hbase
  end;
  run_keep;
  repeat first
    [ match goal with
      | |- context [WinLocalProcessSpawner._determine_working_directory
                      ?s ?ue ?o ?w] =>
          let Hc := fresh "Hcwd" in
          let Hd := fresh "Hdir" in
          pose proof (cwd_trace s ue o w) as Hc;
          destruct (WinLocalProcessSpawner._determine_working_directory
                      s ue o w) as [? ? [?|?]] eqn:Hd;
          cbn in Hc; run_keep
      | |- context [try_finally ?m ?c ?o ?w] =>
          match m with
          | context [PopenAsUser_call ?cm ?k] =>
              let Hhead := fresh "Hhead" in
              assert (Hhead : exists rest,
                         trace (try_finally m c o w)
                         = Call (PopenAsUser_call cm k) :: rest)
                by (unfold try_finally;
                    destruct (P cm k o w) as [? ? [[]|?]]; run;
                    repeat split_answer; by eexists);
              destruct Hhead as [? Hhead];
              destruct (try_finally m c o w) as [? ? [?|?]];
              cbn in Hhead; subst; run_keep
          end
      end
    | progress (rewrite <- ?app_assoc;
                rewrite ?popen_call_skip, ?profile_call_skip by assumption;
                rewrite ?popen_call_none by assumption);
      run_keep
    | split_answer_with run_keep ].

Section StartCall.
Import Cmdline PopenAsUser WinLocalProcessSpawner.

(** The token handle [start] works with: the [PyHANDLE] made of the
    [auth_token] of the authentication state, when there is a non-zero one
    and the handle could be made. *)
Definition token_of (os : oracle) (self : spawner) : option Z :=
  let token_value := auth_state self ≫= (.!! "auth_token") in
  if truthy token_value then
    match os_PyHANDLE os (default 0%Z token_value) with
    | inr h => Some h
    | inl _ => None
    end
  else None.

(** The profile block [start] loads: what [CreateEnvironmentBlock] answers
    for a non-null token handle, when it does not raise. *)
Definition profile_of (os : oracle) (self : spawner) : option env_block :=
  if truthy (token_of os self) then
    match os_CreateEnvironmentBlock os (default 0%Z (token_of os self)) with
    | inr ue => Some ue
    | inl _ => None
    end
  else None.

(** The profile block as the working-directory resolution sees it: without
    a non-empty [APPDATA], [USERPROFILE] is replaced by [PUBLIC] (when the
    block has one). *)
Definition cwd_env (ue : env_block) : env_block :=
  if negb (str_truthy (ue !! "APPDATA")) then
    match ue !! "PUBLIC" with
    | Some public => <["USERPROFILE" := public]> ue
    | None => ue
    end
  else ue.

(** The working directory [start] resolves. *)
Definition chosen_directory (os : oracle) (self : spawner) (w : world)
  : exn + string :=
  result (_determine_working_directory self (cwd_env <$> profile_of os self)
            os w).

Arguments token_of : simpl never.
Arguments profile_of : simpl never.
Arguments cwd_env : simpl never.
Arguments chosen_directory : simpl never.

(** What [start] does before it calls the constructor. *)
Fixpoint before_call (t : list event) : list event :=
  match t with
  | [] => []
  | Call (PopenAsUser_call _ _) :: _ => []
  | ev :: rest => ev :: before_call rest
  end.

Lemma before_call_skip t1 t2 :
  Forall (fun ev => is_cwd_event ev = true) t1 ->
  before_call (t1 ++ t2) = t1 ++ before_call t2.
Proof.
  induction 1 as [|ev t1 Hev _ IH]; [done |].
  cbn. rewrite IH. by destruct ev as [[]|[] []].
Qed.

Lemma cwd_trace_no_detach t h :
  Forall (fun ev => is_cwd_event ev = true) t ->
  ~ In (Call (PyHANDLE_Detach h)) t.
Proof.
  intros Hall Hin. rewrite Forall_forall in Hall.
  apply list_elem_of_In, Hall in Hin. discriminate Hin.
Qed.

(** The log record [start] begins with. *)
Definition spawning_record (self : spawner) : event :=
  Log INFO (Msg_spawning (join " " (map quote (spawn_command self)))).

Ltac start_known P :=
  unfold spawning_record, spawn_command;
  start_until_call P;
  repeat match goal with d := _ |- _ => subst d end;
  try discriminate;
  try (intros Heq; injection Heq; clear Heq; intros; subst);
  cbn [trace result final];
  rewrite <- ?app_assoc; cbn [before_call app];
  rewrite ?before_call_skip by assumption; cbn [before_call app];
  repeat (match goal with
          | H : ?x = _ |- context [?x] => rewrite H
          end; cbn [trace result final]);
  rewrite ?app_nil_r;
  try (exfalso;
       repeat match goal with
         | H : negb _ = false |- _ => apply negb_false_iff in H
         | H : negb _ = true |- _ => apply negb_true_iff in H
         end;
       congruence).

(** X13. Without an authentication state, without an [auth_token] in it, or
    with a zero one, [start] makes no token handle and loads no profile:
    before the constructor call it only logs the command and resolves the
    working directory (without a profile directory), and the constructor
    gets the token [None] and the environment of [get_env], unless
    [popen_kwargs] overrides [token] or [cwd]. *)
Theorem start_without_token
    (P : list string -> kwargs -> M popen_obj) self os w cmd kw :
  truthy (auth_state self ≫= (.!! "auth_token")) = false ->
  let o := start P self os w in
  popen_call (trace o) = Some (cmd, kw) ->
  exists base d,
    result (get_env self os w) = inr base
    /\ result (_determine_working_directory self None os w) = inr d
    /\ kw = <["env" := KEnv base]>
              (popen_kwargs self
               ∪ <["token" := KHandle None]> (<["cwd" := KStr d]> ∅))
    /\ before_call (trace o)
       = spawning_record self
         :: trace (_determine_working_directory self None os w).
Proof.
  intros Htok.
  set (dir := _determine_working_directory self None os w).
  start_known P.
  all: do 2 eexists; repeat split; reflexivity.
Qed.



(** X16. A profile block without a non-empty [APPDATA] but with [PUBLIC]: a
    warning is logged and the working directory is resolved with [PUBLIC]
    in the place of [USERPROFILE].  The environment handed to the
    constructor is not affected: it is the block as it was loaded, laid
    over the environment of [get_env]. *)
Theorem public_directory_stands_in_for_profile
    (P : list string -> kwargs -> M popen_obj) self os w cmd kw v h ue public :
  auth_state self ≫= (.!! "auth_token") = Some v -> v <> 0%Z ->
  os_PyHANDLE os v = inr h -> h <> 0%Z ->
  os_CreateEnvironmentBlock os h = inr ue ->
  str_truthy (ue !! "APPDATA") = false -> ue !! "PUBLIC" = Some public ->
  let o := start P self os w in
  let ue' := <["USERPROFILE" := public]> ue in
  popen_call (trace o) = Some (cmd, kw) ->
  exists base d,
    result (get_env self os w) = inr base
    /\ result (_determine_working_directory self (Some ue') os w) = inr d
    /\ kw = <["env" := KEnv (ue ∪ base)]>
              (popen_kwargs self
               ∪ <["token" := KHandle (Some h)]> (<["cwd" := KStr d]> ∅))
    /\ before_call (trace o)
       = spawning_record self
         :: Call (PyHANDLE_new v)
         :: Call (CreateEnvironmentBlock h)
         :: Log WARNING Msg_appdata_missing
         :: trace (_determine_working_directory self (Some ue') os w).
Proof.
  intros Hv Hv0 Hh Hh0 Hue Happ Hpub. apply Z.eqb_neq in Hv0, Hh0.
  intros o ue'. subst o.
  set (dir := _determine_working_directory self (Some ue') os w).
  subst ue'.
  unfold start. rewrite !Hv. cbn [truthy default]. rewrite !Hv0. cbn [negb].
  start_known P.
  all: do 2 eexists; repeat split; reflexivity.
Qed.

(** X17. When the working directory cannot be resolved, [start] raises the
    exception of the resolution without calling the constructor, and the
    token handle it made is not detached. *)
Theorem start_stops_without_directory
    (P : list string -> kwargs -> M popen_obj) self os w e :
  chosen_directory os self w = inl e ->
  let o := start P self os w in
  result o = inl e
  /\ popen_call (trace o) = None
  /\ forall h, ~ In (Call (PyHANDLE_Detach h)) (trace o).
Proof.
  intros Hchosen.
  start_until_call P.
  all: revert Hchosen; unfold chosen_directory, profile_of, token_of, cwd_env.
  all: repeat (match goal with
               | H : ?x = _ |- context [?x] => rewrite H
               end; cbn).
  all: try discriminate.
  all: intros [= ->]; split; [reflexivity | split; [reflexivity |]].
  all: intros h Hin.
  all: repeat match type of Hin with
         | _ \/ _ => destruct Hin as [Hin | Hin]
         end; try discriminate Hin; try contradiction.
  all: by eapply cwd_trace_no_detach.
Qed.

End StartCall.

(** ** Worked examples for the further properties *)

Section FurtherExamples.
Import Grantor Cmdline PopenAsUser WinLocalProcessSpawner.

(** [CreateProcessAsUser] is refused. *)
Definition os_create_refused : oracle :=
  os_example (inr "S-1-5-21-1004") (inl (WinError 5 "CreateProcessAsUser")) 0
    (inr WAIT_TIMEOUT) (inr STILL_ACTIVE).

Lemma create_failure_witness :
  os_CreateProcessAsUser os_create_refused
  = inl (WinError 5 "CreateProcessAsUser")
  /\ result (launch_with_pipes os_create_refused)
     = inl (WinError 5 "CreateProcessAsUser")
  /\ In (Call (Handle_Close "c2pwrite" 12))
       (trace (launch_with_pipes os_create_refused))
  /\ ~ In (Call GetLastError) (trace (launch_with_pipes os_create_refused)).
Proof.
  destruct (create_failure_is_logged_and_reraised popen0
              (inr ["app"; "--port=8888"]) None false None None None 0%Z
              false 11%Z (-1)%Z (-1)%Z 12%Z (-1)%Z 13%Z os_create_refused
              world0 (WinError 5 "CreateProcessAsUser") eq_refl)
    as (Hr & _ & Hclose & Hnone).
  split; [reflexivity | split; [exact Hr | split]].
  - apply Hclose; [right; left; reflexivity | discriminate].
  - apply Hnone. reflexivity.
Defined.

(** A machine for [start], given the answers of [pywintypes.HANDLE], of
    [CreateEnvironmentBlock] and of [os.getcwd]. *)
Definition os_start (pyhandle : Z -> exn + Z) (profile : exn + env_block)
    (cwd : exn + string) : oracle :=
  mkOracle None None (fun _ => None) (fun _ _ _ => None) (fun _ _ => None)
    (fun _ => inr "S-1-5-21-1004") created_ok 0 (inr WAIT_TIMEOUT)
    (inr STILL_ACTIVE)
    (fun _ => None) (fun _ => None) (fun _ => true)
    pyhandle (fun _ => None) (fun _ => profile)
    cwd (inr "C:\Temp\tmp1") which1 hub_environ
    (fun _ => inr 7%N) (fun _ => 8%N) 3%Z
    (3, 10)%nat (fun _ => None) (fun _ => None) None.

(** A spawner whose user has the token 12345 and no other setting. *)
Definition spawner_token : spawner :=
  mkSpawner "ada" ["app"] ["--port=8888"] [] None ∅ ∅
    (Some (<["auth_token" := 12345%Z]> ∅)) EmptyString 8888.

Lemma start_without_token_witness :
  truthy (auth_state spawner_shell ≫= (.!! "auth_token")) = false
  /\ popen_call (trace (start P_ok spawner_shell os1 world0))
     = Some (["bash"; "-c"; "'jupyter lab' --port=8888"], kw_shell)
  /\ before_call (trace (start P_ok spawner_shell os1 world0))
     = [spawning_record spawner_shell; Call os_getcwd].
Proof.
  assert (Htok : truthy (auth_state spawner_shell ≫= (.!! "auth_token"))
                 = false) by reflexivity.
  assert (Hcall : popen_call (trace (start P_ok spawner_shell os1 world0))
                  = Some (["bash"; "-c"; "'jupyter lab' --port=8888"],
                          kw_shell)) by (vm_compute; reflexivity).
  split; [exact Htok | split; [exact Hcall |]].
  destruct (start_without_token P_ok spawner_shell os1 world0 _ _ Htok Hcall)
    as (base & d & _ & _ & _ & Hbefore).
  rewrite Hbefore. vm_compute. reflexivity.
Defined.


Definition kw_plain (token : option Z) (env : env_block) (cwd : string)
  : kwargs :=
  <["env" := KEnv env]>
    (<["token" := KHandle token]> (<["cwd" := KStr cwd]> ∅)).




(** A profile block without [APPDATA]. *)
Definition bare_block : env_block :=
  <["PUBLIC" := "C:\Users\Public"]> (<["USERPROFILE" := "C:\Users\ada"]> ∅).

Definition os_bare_profile : oracle :=
  os_start (fun v => inr v) (inr bare_block) (inr "C:\hub").

Lemma public_directory_witness :
  let w := dirs ["C:\Users\Public"; "C:\Users\ada"] in
  auth_state spawner_token ≫= (.!! "auth_token") = Some 12345%Z
  /\ 12345%Z <> 0%Z
  /\ os_PyHANDLE os_bare_profile 12345 = inr 12345%Z
  /\ os_CreateEnvironmentBlock os_bare_profile 12345 = inr bare_block
  /\ str_truthy (bare_block !! "APPDATA") = false
  /\ bare_block !! "PUBLIC" = Some "C:\Users\Public"
  /\ popen_call (trace (start P_ok spawner_token os_bare_profile w))
     = Some (["app"; "--port=8888"],
             kw_plain (Some 12345%Z) (bare_block ∪ hub_environ)
               "C:\Users\Public")
  /\ (bare_block ∪ hub_environ) !! "USERPROFILE" = Some "C:\Users\ada"
  /\ In (Log WARNING Msg_appdata_missing)
       (before_call (trace (start P_ok spawner_token os_bare_profile w))).
Proof.
  intros w.
  assert (Hne : 12345%Z <> 0%Z) by discriminate.
  assert (Hcall : popen_call
                    (trace (start P_ok spawner_token os_bare_profile w))
                  = Some (["app"; "--port=8888"],
                          kw_plain (Some 12345%Z) (bare_block ∪ hub_environ)
                            "C:\Users\Public"))
    by (vm_compute; reflexivity).
  split; [reflexivity | split; [exact Hne | split; [reflexivity |]]].
  split; [reflexivity | split; [reflexivity | split; [reflexivity |]]].
  split; [exact Hcall | split; [reflexivity |]].
  destruct (public_directory_stands_in_for_profile P_ok spawner_token
              os_bare_profile w _ _ 12345%Z 12345%Z bare_block
              "C:\Users\Public"
              eq_refl Hne eq_refl Hne eq_refl eq_refl eq_refl Hcall)
    as (base & d & _ & _ & _ & Hbefore).
  rewrite Hbefore. right. right. right. left. reflexivity.
Defined.

Definition os_nowhere : oracle :=
  os_start (fun v => inr v) (inr user_block) (inl (OSError "getcwd")).

Lemma no_directory_witness :
  let w := dirs ["C:\Temp\tmp1"] in
  chosen_directory os_nowhere spawner_token w
  = inl (OSError "No usable temporary directory name found")
  /\ result (start P_ok spawner_token os_nowhere w)
     = inl (OSError "No usable temporary directory name found")
  /\ In (Call (PyHANDLE_new 12345))
       (trace (start P_ok spawner_token os_nowhere w))
  /\ ~ In (Call (PyHANDLE_Detach 12345))
         (trace (start P_ok spawner_token os_nowhere w)).
Proof.
  intros w.
  assert (Hdir : chosen_directory os_nowhere spawner_token w
                 = inl (OSError "No usable temporary directory name found"))
    by (vm_compute; reflexivity).
  destruct (start_stops_without_directory P_ok spawner_token os_nowhere w
              _ Hdir) as (Hr & _ & Hnone).
  split; [exact Hdir | split; [exact Hr | split; [| apply Hnone]]].
  vm_compute. right. left. reflexivity.
Defined.

End FurtherExamples.

(** ** The grant made on the way to a launch *)

Section LaunchGrant.
Import Grantor Cmdline PopenAsUser.

(** X21. With a token whose identity can be read, the state a launch
    leaves is the state the grantor left: whatever the grantor wrote stays
    written when the process creation, a liveness probe or a close fails
    afterwards. *)
Theorem grant_outlives_failed_launch
    self args executable close_fds cwd env startupinfo creationflags shell
    p2cread p2cwrite c2pread c2pwrite errread errwrite os w sid :
  truthy (_token self) = true ->
  os_GetTokenInformation os (default 0%Z (_token self)) = inr sid ->
  final (do_execute_child self args executable close_fds [] cwd env
           startupinfo creationflags shell
           p2cread p2cwrite c2pread c2pwrite errread errwrite os w)
  = final (setup_sacl sid os w).
Proof.
  intros Htoken Hsid.
  exec_child.
  all: exec_grant.
  all: try congruence.
  all: match goal with
       | H : inr ?a = inr ?b |- _ =>
           assert (a = b) by congruence; subst a
       end.
  all: exec_rest.
  all: cbn in *.
  all: rewrite Hg; reflexivity.
Qed.

(** A launcher object that holds the token 12345. *)
Definition popen_token : popen_obj :=
  mkPopen (Some 12345%Z) None false None None.

Lemma grant_outlives_witness :
  truthy (_token popen_token) = true
  /\ os_GetTokenInformation os_create_refused
       (default 0%Z (_token popen_token)) = inr "S-1-5-21-1004"
  /\ result (do_execute_child popen_token (inr ["app"]) None false [] None
               None None 0 false (-1) (-1) (-1) (-1) (-1) (-1)
               os_create_refused world0)
     = inl (WinError 5 "CreateProcessAsUser")
  /\ w_dacl (final (do_execute_child popen_token (inr ["app"]) None false []
                      None None None 0 false (-1) (-1) (-1) (-1) (-1) (-1)
                      os_create_refused world0)) WinSta0
     = Some [allow GENERIC_ACCESS "S-1-5-21-1004";
             allow WINSTA_ALL "S-1-5-21-1004"].
Proof.
  split; [reflexivity | split; [reflexivity | split]].
  - vm_compute. reflexivity.
  - rewrite (grant_outlives_failed_launch popen_token (inr ["app"]) None
               false None None None 0%Z false (-1)%Z (-1)%Z (-1)%Z (-1)%Z
               (-1)%Z (-1)%Z os_create_refused world0 "S-1-5-21-1004"
               eq_refl eq_refl).
    vm_compute. reflexivity.
Defined.

End LaunchGrant.

(** ** The outcome of [start] *)

(** Unfold [start] completely, keeping what the working-directory
    resolution and the constructor answered. *)
Ltac start_cases P :=
  unfold WinLocalProcessSpawner.start, WinLocalProcessSpawner.HANDLE,
    WinLocalProcessSpawner.create_environment_block,
    WinLocalProcessSpawner.which_or, PopenAsUser.Detach,
    WinLocalProcessSpawner.assign_server_ip,
    WinLocalProcessSpawner.assign_server_port,
    WinLocalProcessSpawner.commit;
  run;
  match goal with
  | |- context [WinLocalProcessSpawner.get_env ?s ?o ?w] =>
      let base := fresh "base" in
      let Hbase := fresh "Hbase" in
      destruct (get_env_run s o w) as [base Hbase]; rewrite !Hbase
  end;
  run;
  repeat first
    [ match goal with
      | |- context [WinLocalProcessSpawner._determine_working_directory
                      ?s ?ue ?o ?w] =>
          let Hc := fresh "Hcwd" in
          let Hd := fresh "Hdir" in
          pose proof (cwd_trace s ue o w) as Hc;
          destruct (WinLocalProcessSpawner._determine_working_directory
                      s ue o w) as [? ? [?|?]] eqn:Hd;
          cbn in Hc; run
      | |- context [P ?c ?k ?o ?w] =>
          let Hr := fresh "HPcall" in
          destruct (P c k o w) as [? ? [?|?]] eqn:Hr; run
      end
    | progress (rewrite <- ?app_assoc;
                rewrite ?popen_call_skip, ?profile_call_skip by assumption;
                rewrite ?popen_call_none by assumption);
      run
    | split_answer ].

Section StartOutcome.
Import Cmdline PopenAsUser WinLocalProcessSpawner.

Arguments token_of : simpl never.
Arguments profile_of : simpl never.
Arguments cwd_env : simpl never.

(** The machine's state when [start] calls the constructor: the
    directories as the working-directory resolution left them. *)
Definition launch_world (os : oracle) (self : spawner) (w : world) : world :=
  final (_determine_working_directory self (cwd_env <$> profile_of os self)
           os w).

Arguments launch_world : simpl never.

(** What the end of [start] returns or raises once the constructor
    returned [proc]: the assignments to [server.ip] (for a non-empty [ip])
    and [server.port] and the commit may each raise. *)
Definition bookkeeping (os : oracle) (self : spawner) (proc : popen_obj)
  : exn + (popen_obj * (string * Z)) :=
  match (if negb (is_empty (ip self)) then os_server_ip os (ip self)
         else None) with
  | Some e => inl e
  | None =>
      match os_server_port os (random_port self) with
      | Some e => inl e
      | None =>
          match os_db_commit os with
          | Some e => inl e
          | None =>
              inr (proc,
                   (if is_empty (ip self) then "127.0.0.1" else ip self,
                    random_port self))
          end
      end
  end.

(** What [start] returns or raises once the constructor call gave [r]. *)
Definition start_result (os : oracle) (self : spawner) (cmd : list string)
    (r : exn + popen_obj) : exn + (popen_obj * (string * Z)) :=
  match r with
  | inl (PermissionError m) =>
      match cmd with
      | [] => inl IndexError
      | _ :: _ => inl (PermissionError m)
      end
  | inl e => inl e
  | inr proc => bookkeeping os self proc
  end.

Arguments start_result : simpl never.

Definition is_permission_error (e : exn) : bool :=
  match e with PermissionError _ => true | _ => false end.

(** The error records [start] writes for the outcome [r] of the
    constructor call. *)
Definition error_records (os : oracle) (cmd : list string)
    (r : exn + popen_obj) (t : list event) : Prop :=
  match r with
  | inl e =>
      if is_permission_error e then
        match cmd with
        | [] => True
        | c0 :: _ =>
            In (Call (shutil_which c0)) t
            /\ In (Log ERROR (Msg_permission_denied (resolved_path os c0))) t
        end
      else In (Log ERROR (Msg_start_failed e)) t
  | inr _ => True
  end.

Arguments error_records : simpl never.

(** What [start] makes of the constructor call: its result, the error
    records it writes, and the detaching of the token handle. *)
Lemma start_outcome
    (P : list string -> kwargs -> M popen_obj) self os w cmd kw r :
  popen_call (trace (start P self os w)) = Some (cmd, kw) ->
  result (P cmd kw os (launch_world os self w)) = r ->
  result (start P self os w) = start_result os self cmd r
  /\ error_records os cmd r (trace (start P self os w))
  /\ (forall v h,
         auth_state self ≫= (.!! "auth_token") = Some v -> v <> 0%Z ->
         os_PyHANDLE os v = inr h -> h <> 0%Z ->
         In (Call (PyHANDLE_Detach h)) (trace (start P self os w))).
Proof.
  intros Hcall Hr. revert Hcall.
  start_cases P.
  all: try discriminate.
  all: intros Heq; injection Heq; clear Heq; intros; subst.
  all: unfold launch_world, profile_of, token_of, cwd_env.
  all: repeat (match goal with
               | H : ?x = _ |- context [?x] => rewrite H
               end; cbn).
  all: unfold start_result, error_records, bookkeeping, resolved_path.
  all: repeat match goal with
         | H : negb _ = false |- _ => apply negb_false_iff in H
         | H : negb _ = true |- _ => apply negb_true_iff in H
         end.
  all: repeat (match goal with
               | H : ?x = _ |- context [?x] => rewrite H
               end; cbn).
  all: cbn.
  all: split; [reflexivity | split].
  all: try exact I.
  all: try (split; find_in).
  all: try (intros v h Hv Hv0 Hh Hh0; rewrite Hv in *; cbn in *;
            first
              [ exfalso;
                repeat match goal with
                  | H : negb _ = false |- _ => apply negb_false_iff in H
                  | H : (_ =? _)%Z = true |- _ => apply Z.eqb_eq in H
                  end; congruence
              | repeat match goal with
                  | H1 : ?x = inr ?a, H2 : ?x = inr ?b |- _ =>
                      assert (a = b) by congruence; subst; clear H2
                  end; find_in ]).
  all: find_in.
Qed.

(** C8 as it is worded: when the constructor call [start] makes raises
    [PermissionError], the error the caller receives carries the resolved
    path of the first command argument. *)
Definition permission_error_carries_path : Prop :=
  forall (P : list string -> kwargs -> M popen_obj) self os w c0 rest kw msg,
    popen_call (trace (start P self os w)) = Some (c0 :: rest, kw) ->
    result (P (c0 :: rest) kw os (launch_world os self w))
    = inl (PermissionError msg) ->
    exists m, result (start P self os w) = inl (PermissionError m)
              /\ occurs_in (resolved_path os c0) m = true.

Lemma C8_error_does_not_carry_path : ~ permission_error_carries_path.
Proof.
  intros H.
  destruct (H P_denied spawner1 os1 world0 "python"
              ["-m"; "jupyter"; "notebook"; "--port=8888"] kw1
              "Access denied" (call1 P_denied (or_intror eq_refl))
              (P_denied_raises _ _ _ _))
    as (m & Hm & Hocc).
  assert (Hr : result (start P_denied spawner1 os1 world0)
               = inl (PermissionError "Access denied"))
    by (vm_compute; reflexivity).
  rewrite Hr in Hm. injection Hm as <-.
  vm_compute in Hocc. discriminate Hocc.
Qed.

(** C8, amended. When the constructor call [start] makes raises
    [PermissionError], [start] resolves the first element of the command
    with [shutil.which] (falling back to the element itself), logs an error
    record naming that path, and re-raises the very exception it caught:
    the path is in the log, not in the error. *)
Theorem C8_permission_error_is_logged_and_reraised
    (P : list string -> kwargs -> M popen_obj) self os w c0 rest kw msg :
  let o := start P self os w in
  popen_call (trace o) = Some (c0 :: rest, kw) ->
  result (P (c0 :: rest) kw os (launch_world os self w))
  = inl (PermissionError msg) ->
  result o = inl (PermissionError msg)
  /\ In (Call (shutil_which c0)) (trace o)
  /\ In (Log ERROR (Msg_permission_denied (resolved_path os c0))) (trace o).
Proof.
  intros o Hcall HP.
  destruct (start_outcome P self os w _ _ _ Hcall HP) as (Hr & Hrec & _).
  split; [exact Hr | exact Hrec].
Qed.

(** A constructor that is refused for [python] only. *)
Definition P_guarded : list string -> kwargs -> M popen_obj :=
  fun cmd _ =>
    match cmd with
    | "python" :: _ => raise (PermissionError "Access denied")
    | _ => ret (mkPopen None None true (Some 100%Z) (Some 4242%Z))
    end.

Lemma C8_permission_error_witness :
  popen_call (trace (start P_guarded spawner1 os1 world0))
  = Some ("python" :: ["-m"; "jupyter"; "notebook"; "--port=8888"], kw1)
  /\ result (P_guarded cmd1 kw1 os1 (launch_world os1 spawner1 world0))
     = inl (PermissionError "Access denied")
  /\ result (start P_guarded spawner1 os1 world0)
     = inl (PermissionError "Access denied")
  /\ In (Log ERROR (Msg_permission_denied "C:\Python311\python.exe"))
       (trace (start P_guarded spawner1 os1 world0)).
Proof.
  assert (Hcall : popen_call (trace (start P_guarded spawner1 os1 world0))
                  = Some ("python"
                          :: ["-m"; "jupyter"; "notebook"; "--port=8888"],
                          kw1)) by (vm_compute; reflexivity).
  assert (HP : result (P_guarded cmd1 kw1 os1
                         (launch_world os1 spawner1 world0))
               = inl (PermissionError "Access denied")) by reflexivity.
  split; [exact Hcall | split; [exact HP |]].
  destruct (C8_permission_error_is_logged_and_reraised P_guarded spawner1 os1
              world0 "python" ["-m"; "jupyter"; "notebook"; "--port=8888"]
              kw1 "Access denied" Hcall HP)
    as (Hr & _ & Hlog).
  split; [exact Hr | exact Hlog].
Defined.

(** X18. What [start] hands back and what it does with the token, whatever
    the constructor does.  The local token handle, when one was made, is
    detached after the constructor call on every path.  When the call
    raises, [start] raises that exception (only a [PermissionError] met
    with an empty command is replaced, by the [IndexError] of [cmd[0]]).
    When it returns, [start] sets [server.ip] (for a non-empty [ip]) and
    [server.port] and commits, and returns the object with the address
    unless one of these three raises.  No answer of [Detach] changes the
    outcome. *)
Lemma start_cleanup
    (P : list string -> kwargs -> M popen_obj) self os w cmd kw :
  let o := start P self os w in
  popen_call (trace o) = Some (cmd, kw) ->
  (forall v h,
      auth_state self ≫= (.!! "auth_token") = Some v -> v <> 0%Z ->
      os_PyHANDLE os v = inr h -> h <> 0%Z ->
      In (Call (PyHANDLE_Detach h)) (trace o))
  /\ result o =
     match result (P cmd kw os (launch_world os self w)) with
     | inl (PermissionError m) =>
         match cmd with
         | [] => inl IndexError
         | _ :: _ => inl (PermissionError m)
         end
     | inl e => inl e
     | inr proc =>
         match (if negb (is_empty (ip self)) then os_server_ip os (ip self)
                else None) with
         | Some e => inl e
         | None =>
             match os_server_port os (random_port self) with
             | Some e => inl e
             | None =>
                 match os_db_commit os with
                 | Some e => inl e
                 | None =>
                     inr (proc,
                          (if is_empty (ip self) then "127.0.0.1"
                           else ip self,
                           random_port self))
                 end
             end
         end
     end.
Proof.
  intros o Hcall.
  destruct (start_outcome P self os w _ _ _ Hcall eq_refl)
    as (Hr & _ & Hdetach).
  split; [exact Hdetach | exact Hr].
Qed.

Lemma start_cleanup_witness :
  let proc := mkPopen (Some 12345%Z) None true (Some 100%Z) (Some 4242%Z) in
  popen_call (trace (start P_ok spawner1 os1 world0)) = Some (cmd1, kw1)
  /\ In (Call (PyHANDLE_Detach 12345)) (trace (start P_ok spawner1 os1 world0))
  /\ result (start P_ok spawner1 os1 world0)
     = inr (proc, ("127.0.0.1", 8888%Z)).
Proof.
  intros proc.
  assert (Hcall : popen_call (trace (start P_ok spawner1 os1 world0))
                  = Some (cmd1, kw1)) by (vm_compute; reflexivity).
  assert (Hne : 12345%Z <> 0%Z) by discriminate.
  split; [exact Hcall |].
  destruct (start_cleanup P_ok spawner1 os1 world0 cmd1 kw1 Hcall)
    as [Hdetach Hr].
  split; [| exact Hr].
  exact (Hdetach 12345%Z 12345%Z eq_refl Hne eq_refl Hne).
Defined.

(** X22. When the constructor call [start] makes raises anything but
    [PermissionError], [start] logs an error record with the exception and
    re-raises it unchanged. *)
Theorem constructor_error_is_logged_and_reraised
    (P : list string -> kwargs -> M popen_obj) self os w cmd kw e :
  is_permission_error e = false ->
  let o := start P self os w in
  popen_call (trace o) = Some (cmd, kw) ->
  result (P cmd kw os (launch_world os self w)) = inl e ->
  result o = inl e /\ In (Log ERROR (Msg_start_failed e)) (trace o).
Proof.
  intros He o Hcall HP.
  destruct (start_outcome P self os w _ _ _ Hcall HP) as (Hr & Hrec & _).
  unfold error_records in Hrec. rewrite He in Hrec.
  split; [| exact Hrec].
  subst o. rewrite Hr.
  destruct e; first [discriminate He | reflexivity].
Qed.

(** A constructor that fails with an operating-system error when it is
    given a token. *)
Definition P_failed : list string -> kwargs -> M popen_obj :=
  fun _ kw =>
    match kw !! "token" with
    | Some (KHandle (Some _)) => raise (WinError 2 "CreateProcessAsUser")
    | _ => ret (mkPopen None None true (Some 100%Z) (Some 4242%Z))
    end.

Lemma constructor_error_witness :
  is_permission_error (WinError 2 "CreateProcessAsUser") = false
  /\ popen_call (trace (start P_failed spawner1 os1 world0))
     = Some (cmd1, kw1)
  /\ result (P_failed cmd1 kw1 os1 (launch_world os1 spawner1 world0))
     = inl (WinError 2 "CreateProcessAsUser")
  /\ result (start P_failed spawner1 os1 world0)
     = inl (WinError 2 "CreateProcessAsUser")
  /\ In (Log ERROR (Msg_start_failed (WinError 2 "CreateProcessAsUser")))
       (trace (start P_failed spawner1 os1 world0)).
Proof.
  assert (Hcall : popen_call (trace (start P_failed spawner1 os1 world0))
                  = Some (cmd1, kw1)) by (vm_compute; reflexivity).
  assert (HP : result (P_failed cmd1 kw1 os1
                         (launch_world os1 spawner1 world0))
               = inl (WinError 2 "CreateProcessAsUser"))
    by (vm_compute; reflexivity).
  split; [reflexivity | split; [exact Hcall | split; [exact HP |]]].
  exact (constructor_error_is_logged_and_reraised P_failed spawner1 os1
           world0 cmd1 kw1 (WinError 2 "CreateProcessAsUser") eq_refl Hcall
           HP).
Defined.

(** Neither the current directory nor a temporary directory can be had. *)
Definition os_no_directory : oracle :=
  mkOracle None None (fun _ => None) (fun _ _ _ => None) (fun _ _ => None)
    (fun _ => inr "S-1-5-21-1004") created_ok 0 (inr WAIT_TIMEOUT)
    (inr STILL_ACTIVE)
    (fun _ => None) (fun _ => None) (fun _ => true)
    (fun v => inr v) (fun _ => None) (fun _ => inr user_block)
    (inl (OSError "getcwd"))
    (inl (OSError "No usable temporary directory found"))
    which1 hub_environ
    (fun _ => inr 7%N) (fun _ => 8%N) 3%Z
    (3, 10)%nat (fun _ => None) (fun _ => None) None.

(** C2 at a failing input. The user has the token 12345, no directory is
    configured, the profile directory is not on disk, and both [os.getcwd]
    and [tempfile.mkdtemp] raise.  [start] has made its token handle and
    loaded the profile when the working-directory resolution raises; the
    resolution is called before the [try] whose [finally] detaches the
    token, so [start] ends with that exception, whatever the constructor
    is, without any [Detach]: the handle object it made stays bound to the
    caller's token. *)
Theorem C2_token_left_attached_when_no_directory :
  forall P : list string -> kwargs -> M popen_obj,
    let o := start P spawner_token os_no_directory world0 in
    trace o =
      [Log INFO (Msg_spawning "app --port=8888");
       Call (PyHANDLE_new 12345);
       Call (CreateEnvironmentBlock 12345);
       Call os_getcwd;
       Log WARNING (Msg_getcwd_failed (OSError "getcwd"));
       Call mkdtemp]
    /\ result o = inl (OSError "No usable temporary directory found")
    /\ forall h, ~ In (Call (PyHANDLE_Detach h)) (trace o).
Proof.
  intros P o.
  assert (Ht : trace o =
      [Log INFO (Msg_spawning "app --port=8888");
       Call (PyHANDLE_new 12345);
       Call (CreateEnvironmentBlock 12345);
       Call os_getcwd;
       Log WARNING (Msg_getcwd_failed (OSError "getcwd"));
       Call mkdtemp]) by (vm_compute; reflexivity).
  rewrite Ht. split; [reflexivity | split].
  - vm_compute. reflexivity.
  - intros h Hin. cbn in Hin.
    repeat destruct Hin as [Hin | Hin]; try discriminate Hin; exact Hin.
Qed.

End StartOutcome.
